(** * Order and inventory consistency of the marketplace server

    A shallow embedding of [src/server/index.js]: the JSON document
    ([accounts], [items], [orders]) is a record of lists, every request
    handler is a function from the stored document and the request body
    to the document that is on disk afterwards and the HTTP response.

    Conventions of the embedding.
    - JSON numbers that the handlers compute with (ids, stock, quantity)
      are integers, [Z]; the price is kept in cents so that
      [+(price * quantity).toFixed(2)] is the exact product.
    - A request field that may be missing is an [option]; the defaults of
      the destructuring patterns are applied by the handler.
    - Strings are byte strings; [toLowerCase] and [trim] act on ASCII.
    - [new Date().toISOString()] and [Math.random()] are inputs of the
      handler that uses them (record [env]).
    - [bcrypt.compareSync] is a variable of the section [Handlers].

    The embedding covers the order, cancel, arrival and takedown handlers
    with the helpers they call, the account and item creation, the item
    list, the start-up block for the admin password, the user check and the
    normalisation of a wish list; of the front end, the escaping of text,
    the guest's store of order ids, the cancel button and the figures of the
    admin panel.  Fields that no modelled handler decides on (descriptions,
    images, wish lists, roles, the creation dates of accounts and items) are
    left out of the records; the stock override, the storage of wish lists
    and the start-up block for employees, which need them or numbers that
    are not integers, are not embedded. *)

From Stdlib Require Import ZArith List String Ascii Bool Lia.
Import ListNotations.

Local Open Scope string_scope.
Local Open Scope Z_scope.

(** ** JavaScript primitives used by the handlers *)

(** [c.toLowerCase()] on one ASCII character. *)
Definition lower_ascii (c : ascii) : ascii :=
  let n := nat_of_ascii c in
  if (Nat.leb 65 n && Nat.leb n 90)%bool then ascii_of_nat (n + 32) else c.

(** [s.toLowerCase()]. *)
Fixpoint toLowerCase (s : string) : string :=
  match s with
  | EmptyString => EmptyString
  | String c r => String (lower_ascii c) (toLowerCase r)
  end.

(** White space removed by [String.prototype.trim] (ASCII part). *)
Definition is_space (c : ascii) : bool :=
  let n := nat_of_ascii c in
  (Nat.eqb n 32 || (Nat.leb 9 n && Nat.leb n 13))%bool.

Fixpoint trimStart (s : string) : string :=
  match s with
  | EmptyString => EmptyString
  | String c r => if is_space c then trimStart r else s
  end.

Fixpoint rev_string (acc s : string) : string :=
  match s with
  | EmptyString => acc
  | String c r => rev_string (String c acc) r
  end.

Definition trimEnd (s : string) : string :=
  rev_string "" (trimStart (rev_string "" s)).

(** [s.trim()], on ASCII strings (see [ascii_only]): the white space
    removed is the ASCII white space. *)
Definition trim (s : string) : string := trimEnd (trimStart s).

(** Truthiness of a string: only the empty string is falsy. *)
Definition truthy (s : string) : bool := negb (s =? "")%string.

(** Truthiness of an optional string field ([undefined] is falsy). *)
Definition truthy_opt (s : option string) : bool :=
  match s with
  | Some x => truthy x
  | None => false
  end.

(** [x || 0] on a number. *)
Definition or_zero (x : Z) : Z := if x =? 0 then 0 else x.

(** [Math.max(x, ...xs)]. *)
Definition Math_max (x : Z) (xs : list Z) : Z := fold_left Z.max xs x.

(** [array.find(p)]: the first element that satisfies [p]. *)
Definition find {A} (p : A -> bool) (l : list A) : option A := List.find p l.

(** The effect on the array of mutating the object that [find p] returned:
    [f] is applied to the first element that satisfies [p]. *)
Fixpoint update_first {A} (p : A -> bool) (f : A -> A) (l : list A) : list A :=
  match l with
  | [] => []
  | x :: r => if p x then f x :: r else x :: update_first p f r
  end.

(** ** The stored document *)

Module Account.
Record t := mk {
  username : string;
  fullName : string;
  passwordHash : option string
}.
End Account.

Module Item.
Record t := mk {
  id : Z;
  name : string;
  price : Z;
  stock : Z;
  active : option bool
}.

Definition with_stock (s : Z) (it : t) : t :=
  mk (id it) (name it) (price it) s (active it).

Definition with_active (a : option bool) (it : t) : t :=
  mk (id it) (name it) (price it) (stock it) a.

(** [it.active !== false] *)
Definition is_active (it : t) : bool :=
  match active it with
  | Some false => false
  | _ => true
  end.
End Item.

Inductive order_status := processing | scheduled | canceled.

Definition status_eqb (a b : order_status) : bool :=
  match a, b with
  | processing, processing | scheduled, scheduled | canceled, canceled => true
  | _, _ => false
  end.

Module Order.
Record t := mk {
  id : Z;
  itemId : Z;
  itemName : string;
  username : string;
  buyerName : string;
  quantity : Z;
  amount : Z;
  status : order_status;
  arrivalDate : option string;
  createdAt : string;
  cancelToken : option string;
  canceledAt : option string
}.

(** [o.status = 'canceled'; o.canceledAt = now] *)
Definition cancel (now : string) (o : t) : t :=
  mk (id o) (itemId o) (itemName o) (username o) (buyerName o) (quantity o)
     (amount o) canceled (arrivalDate o) (createdAt o) (cancelToken o)
     (Some now).

(** [o.arrivalDate = d; o.status = s] *)
Definition with_arrival (d : option string) (s : order_status) (o : t) : t :=
  mk (id o) (itemId o) (itemName o) (username o) (buyerName o) (quantity o)
     (amount o) s d (createdAt o) (cancelToken o) (canceledAt o).

(** [o.status !== 'canceled'] *)
Definition live (o : t) : bool := negb (status_eqb (status o) canceled).
End Order.

Record data := mkData {
  accounts : list Account.t;
  items : list Item.t;
  orders : list Order.t
}.

(** [nextId(array)], on the ids of the array.  The arithmetic is that of
    the integers; it is the code's on ids below 2^53 (see [safe_id]). *)
Definition nextId (ids : list Z) : Z :=
  match map or_zero ids with
  | [] => 1
  | x :: xs => Math_max x xs + 1
  end.

(** A response: [res.json(body)] or [res.status(code).json({error: msg})]. *)
Inductive response (A : Type) :=
| Json (body : A)
| Error (code : Z) (msg : string).
Arguments Json {A} body.
Arguments Error {A} code msg.

(** The clock and the random source of one request: [now k] is the value
    of [new Date().toISOString()] at the k-th call of the handler,
    [rand36 k] the value of [Math.floor(Math.random()*36)] at the k-th
    call. *)
Record env := mkEnv {
  now : nat -> string;
  rand36 : nat -> nat
}.

(** ** Cancel tokens *)

Definition alphabet : string := "abcdefghijklmnopqrstuvwxyz0123456789".

(** [chars.join('')], an out-of-range index of a string being [undefined],
    which [join] prints as the empty string. *)
Fixpoint join (l : list (option ascii)) : string :=
  match l with
  | [] => EmptyString
  | Some c :: r => String c (join r)
  | None :: r => join r
  end.

Definition generateCancelToken (e : env) : string :=
  join (map (fun k => String.get (rand36 e k) alphabet) (seq 0 24)).

(** ** The predicates given to [find] *)

(** [it => it.id === Number(itemId) && it.active !== false] *)
Definition active_item_with_id (itemId : Z) (it : Item.t) : bool :=
  ((Item.id it =? itemId) && Item.is_active it)%bool.

(** [i => i.id === Number(itemId)] *)
Definition item_with_id (itemId : Z) (it : Item.t) : bool :=
  Item.id it =? itemId.

(** [o => o.id === Number(orderId)] *)
Definition order_with_id (orderId : Z) (o : Order.t) : bool :=
  Order.id o =? orderId.

(** [a => a.username.toLowerCase() === username.toLowerCase()] *)
Definition account_named (username : string) (a : Account.t) : bool :=
  (toLowerCase (Account.username a) =? toLowerCase username)%string.

(** ** POST /api/order *)

Record order_req := mkOrderReq {
  or_username : option string;
  or_buyerFullName : option string;
  or_itemId : option Z;
  or_quantity : option Z
}.

(** [username && username.toLowerCase() !== 'guest'] *)
Definition non_guest (u : string) : bool :=
  (truthy u && negb (toLowerCase u =? "guest")%string)%bool.

Definition default {A} (d : A) (o : option A) : A :=
  match o with
  | Some x => x
  | None => d
  end.

(** The buyer name of lines 158-168, [None] when the guest's full name is
    missing or shorter than two characters once trimmed. *)
Definition resolve_buyer (d : data) (username : string)
           (buyerFullName : option string) : option string :=
  if non_guest username then
    match find (account_named username) (accounts d) with
    | Some acc =>
        Some (if truthy (Account.fullName acc) then Account.fullName acc
              else Account.username acc)
    | None => Some username
    end
  else
    match buyerFullName with
    | Some full =>
        if (truthy full && negb (Nat.ltb (String.length (trim full)) 2))%bool
        then Some (trim full) else None
    | None => None
    end.

(** The order object of lines 173-189, built from the item after its stock
    has been decremented. *)
Definition new_order (e : env) (d : data) (item : Item.t)
           (username buyerName : string) (quantity : Z) : Order.t :=
  let ouser := if non_guest username then username else "guest" in
  Order.mk (nextId (map Order.id (orders d))) (Item.id item) (Item.name item)
           ouser buyerName quantity (Item.price item * quantity) processing
           None (now e 0)
           (if (negb (truthy ouser) || (toLowerCase ouser =? "guest")%string)%bool
            then Some (generateCancelToken e) else None)
           None.

Definition post_order (e : env) (d : data) (r : order_req)
  : data * response Order.t :=
  let username := default "guest" (or_username r) in
  let quantity := default 1 (or_quantity r) in
  match or_itemId r with
  | None => (d, Error 400 "No itemId provided")
  | Some itemId =>
    if itemId =? 0 then (d, Error 400 "No itemId provided") else
    match find (active_item_with_id itemId) (items d) with
    | None => (d, Error 400 "Item not found")
    | Some item =>
      if Item.stock item <? quantity then (d, Error 400 "Not enough stock") else
      match resolve_buyer d username (or_buyerFullName r) with
      | None => (d, Error 400 "Full name required for guest purchases")
      | Some buyerName =>
        let reserve := Item.with_stock (Item.stock item - quantity) in
        let order := new_order e d (reserve item) username buyerName quantity in
        (mkData (accounts d)
                (update_first (active_item_with_id itemId) reserve (items d))
                (orders d ++ [order]),
         Json order)
      end
    end
  end.

(** ** Authentication and the admin handlers *)

Section Handlers.

(** [bcrypt.compareSync(password, hash)] *)
Variable compareSync : string -> string -> bool.

Definition is_admin_account (a : Account.t) : bool :=
  (truthy (Account.username a)
   && (toLowerCase (Account.username a) =? "admin")%string)%bool.

Definition checkAdminCredentials (d : data) (username password : string)
  : bool :=
  if (negb (truthy username) || negb (truthy password))%bool then false else
  if negb (toLowerCase username =? "admin")%string then false else
  match find is_admin_account (accounts d) with
  | None => false
  | Some admin =>
    match Account.passwordHash admin with
    | None => false
    | Some hash =>
        if negb (truthy hash) then false else compareSync password hash
    end
  end.

(** The credentials of a request body, [''] when missing. *)
Record credentials := mkCred {
  c_username : option string;
  c_password : option string
}.

Definition checkAdmin (d : data) (c : credentials) : bool :=
  checkAdminCredentials d (default "" (c_username c))
                        (default "" (c_password c)).

(** *** POST /api/cancel-order *)

Record cancel_req := mkCancelReq {
  cr_orderId : option Z;
  cr_username : option string;
  cr_password : option string;
  cr_cancelToken : option string
}.

(** The authorization decision of the cancel handler. *)
Definition authorized (d : data) (username password : string)
           (cancelToken : option string) (ord : Order.t) : bool :=
  if (truthy username && truthy password
      && (toLowerCase username =? "admin")%string
      && checkAdminCredentials d username password)%bool
  then true
  else if (truthy username && truthy (Order.username ord)
           && negb (toLowerCase (Order.username ord) =? "guest")%string
           && (toLowerCase username
               =? toLowerCase (Order.username ord))%string)%bool
  then true
  else if (truthy_opt cancelToken && truthy_opt (Order.cancelToken ord))%bool
  then match cancelToken, Order.cancelToken ord with
       | Some t, Some t' => (t =? t')%string
       | _, _ => false
       end
  else false.

(** [item.stock = Number(item.stock || 0) + Number(q || 0)] *)
Definition restore (q : Z) (item : Item.t) : Item.t :=
  Item.with_stock (or_zero (Item.stock item) + or_zero q) item.

Definition post_cancel_order (e : env) (d : data) (r : cancel_req)
  : data * response Order.t :=
  let username := default "" (cr_username r) in
  let password := default "" (cr_password r) in
  match cr_orderId r with
  | None => (d, Error 400 "orderId required")
  | Some orderId =>
    if orderId =? 0 then (d, Error 400 "orderId required") else
    match find (order_with_id orderId) (orders d) with
    | None => (d, Error 400 "Order not found")
    | Some ord =>
      if status_eqb (Order.status ord) canceled
      then (d, Error 400 "Order already canceled") else
      if negb (authorized d username password (cr_cancelToken r) ord)
      then (d, Error 403 "Not authorized to cancel this order") else
      (mkData (accounts d)
              (update_first (item_with_id (Order.itemId ord))
                            (restore (Order.quantity ord)) (items d))
              (update_first (order_with_id orderId) (Order.cancel (now e 0))
                            (orders d)),
       Json (Order.cancel (now e 0) ord))
    end
  end.

(** *** POST /api/admin/update-arrival *)

Record arrival_req := mkArrivalReq {
  ar_cred : credentials;
  ar_orderId : option Z;
  ar_arrivalDate : option string
}.

Definition admin_required {A} : response A :=
  Error 403 "Admin authentication required (username & password)".

Definition post_update_arrival (d : data) (r : arrival_req)
  : data * response Order.t :=
  if negb (checkAdmin d (ar_cred r)) then (d, admin_required) else
  match ar_orderId r with
  | None => (d, Error 400 "Order not found")
  | Some orderId =>
    match find (order_with_id orderId) (orders d) with
    | None => (d, Error 400 "Order not found")
    | Some ord =>
      let upd :=
        if truthy_opt (ar_arrivalDate r)
        then Order.with_arrival (ar_arrivalDate r) scheduled
        else Order.with_arrival None processing in
      (mkData (accounts d) (items d)
              (update_first (order_with_id orderId) upd (orders d)),
       Json (upd ord))
    end
  end.

(** *** POST /api/admin/takedown-item *)

Record takedown_req := mkTakedownReq {
  tr_cred : credentials;
  tr_itemId : option Z
}.

Record takedown_res := mkTakedownRes {
  success : bool;
  canceledOrders : Z
}.

(** [o.itemId === item.id && o.status !== 'canceled'] *)
Definition live_order_of (itemId : Z) (o : Order.t) : bool :=
  ((Order.itemId o =? itemId) && Order.live o)%bool.

(** The [forEach] over the orders: the state of the loop is the item's
    stock and [canceledCount]; the result is the array after the loop
    with the final state. *)
Fixpoint cascade (e : env) (itemId : Z) (os : list Order.t)
         (stock canceledCount : Z) : list Order.t * Z * Z :=
  match os with
  | [] => ([], stock, canceledCount)
  | o :: r =>
    if live_order_of itemId o then
      let '(r', s, c) :=
        cascade e itemId r (or_zero stock + or_zero (Order.quantity o))
                (canceledCount + 1) in
      (Order.cancel (now e (Z.to_nat canceledCount)) o :: r', s, c)
    else
      let '(r', s, c) := cascade e itemId r stock canceledCount in
      (o :: r', s, c)
  end.

Definition post_takedown_item (e : env) (d : data) (r : takedown_req)
  : data * response takedown_res :=
  if negb (checkAdmin d (tr_cred r)) then (d, admin_required) else
  match tr_itemId r with
  | None => (d, Error 400 "Item not found")
  | Some itemId =>
    match find (item_with_id itemId) (items d) with
    | None => (d, Error 400 "Item not found")
    | Some item =>
      let '(os, s, c) :=
        cascade e (Item.id item) (orders d) (Item.stock item) 0 in
      (mkData (accounts d)
              (update_first (item_with_id itemId)
                 (fun i => Item.with_stock s (Item.with_active (Some false) i))
                 (items d))
              os,
       Json (mkTakedownRes true c))
    end
  end.

(** ** The system as a transition system *)

Inductive request :=
| PlaceOrder (e : env) (r : order_req)
| CancelOrder (e : env) (r : cancel_req)
| UpdateArrival (r : arrival_req)
| TakedownItem (e : env) (r : takedown_req).

Definition step (d : data) (rq : request) : data :=
  match rq with
  | PlaceOrder e r => fst (post_order e d r)
  | CancelOrder e r => fst (post_cancel_order e d r)
  | UpdateArrival r => fst (post_update_arrival d r)
  | TakedownItem e r => fst (post_takedown_item e d r)
  end.

Definition run (d : data) (rqs : list request) : data := fold_left step rqs d.

End Handlers.

(** ** Further parts of the server *)

(** *** GET /api/items *)

Definition get_items (d : data) : list Item.t :=
  filter Item.is_active (items d).

(** *** Accounts and credentials *)

(** [a.passwordHash = h] *)
Definition set_passwordHash (h : string) (a : Account.t) : Account.t :=
  Account.mk (Account.username a) (Account.fullName a) (Some h).

(** What a response shows of an account: the user name and the full name
    (never the hash).  The stored accounts of the embedding carry no
    [createdAt] and no [isAdmin]; no handler decides on them, the admin
    check goes by the user name. *)
Record account_view := mkView {
  v_username : string;
  v_fullName : string
}.

Record account_req := mkAccountReq {
  ca_username : option string;
  ca_password : option string;
  ca_fullName : option string
}.

(** [a => a.username && a.username.toLowerCase() === username.toLowerCase()] *)
Definition user_account (username : string) (a : Account.t) : bool :=
  (truthy (Account.username a)
   && (toLowerCase (Account.username a) =? toLowerCase username)%string)%bool.

(** [!fullName || typeof fullName !== 'string' || fullName.trim().length < 2] *)
Definition bad_fullName (fullName : option string) : bool :=
  match fullName with
  | Some f => (negb (truthy f) || Nat.ltb (String.length (trim f)) 2)%bool
  | None => true
  end.

Section Accounts.

(** [bcrypt.compareSync(password, hash)] *)
Variable compareSync : string -> string -> bool.

(** [bcrypt.hashSync(password, 10)]; the salt that bcrypt draws is the
    first argument. *)
Variable hashSync : string -> string -> string.

(** The start-up block [ensureAdminPassword]. *)
Definition ensureAdminPassword (salt : string) (d : data) : data :=
  match find is_admin_account (accounts d) with
  | Some admin =>
    if negb (truthy_opt (Account.passwordHash admin)) then
      mkData (update_first is_admin_account
                (set_passwordHash (hashSync salt "GoofyGuy1!")) (accounts d))
             (items d) (orders d)
    else d
  | None => d
  end.

(** POST /api/create-account: log in to an existing account or create a
    new one. *)
Definition post_create_account (salt : string) (d : data) (r : account_req)
  : data * response account_view :=
  match ca_username r with
  | None => (d, Error 400 "Invalid username")
  | Some username =>
    if negb (truthy username) then (d, Error 400 "Invalid username") else
    let password := default "" (ca_password r) in
    if (negb (truthy password) || Nat.ltb (String.length password) 4)%bool
    then (d, Error 400 "Password required (min length 4)") else
    match find (account_named username) (accounts d) with
    | Some exists_ =>
      if (negb (truthy_opt (Account.passwordHash exists_))
          || negb (compareSync password
                     (default "" (Account.passwordHash exists_))))%bool
      then (d, Error 400 "Invalid password for existing account")
      else (d, Json (mkView (Account.username exists_)
                            (Account.fullName exists_)))
    | None =>
      if bad_fullName (ca_fullName r)
      then (d, Error 400 "Full name required for new accounts") else
      let fullName := default "" (ca_fullName r) in
      let account :=
        Account.mk username fullName (Some (hashSync salt password)) in
      (mkData (accounts d ++ [account]) (items d) (orders d),
       Json (mkView username fullName))
    end
  end.

(** [checkUserCredentials(username, password)] *)
Definition checkUserCredentials (d : data) (username password : string)
  : bool :=
  if (negb (truthy username) || negb (truthy password))%bool then false else
  match find (user_account username) (accounts d) with
  | None => false
  | Some acc =>
    if negb (truthy_opt (Account.passwordHash acc)) then false
    else compareSync password (default "" (Account.passwordHash acc))
  end.

(** *** POST /api/admin/create-item *)

Record item_req := mkItemReq {
  ci_cred : credentials;
  ci_name : option string;
  ci_price : option Z;
  ci_stock : option Z
}.

Definition post_create_item (d : data) (r : item_req)
  : data * response Item.t :=
  if negb (checkAdmin compareSync d (ci_cred r)) then (d, admin_required) else
  if negb (truthy_opt (ci_name r)) then (d, Error 400 "Item name required") else
  let newItem :=
    Item.mk (nextId (map Item.id (items d))) (default "" (ci_name r))
            (default 0 (ci_price r)) (default 0 (ci_stock r)) (Some true) in
  (mkData (accounts d) (items d ++ [newItem]) (orders d), Json newItem).

(** *** The whole server as a transition system *)

Inductive server_request :=
| Core (rq : request)
| CreateAccount (salt : string) (r : account_req)
| CreateItem (r : item_req).

Definition server_step (d : data) (rq : server_request) : data :=
  match rq with
  | Core rq => step compareSync d rq
  | CreateAccount salt r => fst (post_create_account salt d r)
  | CreateItem r => fst (post_create_item d r)
  end.

Definition server_run (d : data) (rqs : list server_request) : data :=
  fold_left server_step rqs d.

End Accounts.

(** *** The wish list stored by POST /api/wishlist *)

(** [set.add(x)] on the insertion-ordered elements of a [Set]. *)
Definition set_add (seen : list Z) (x : Z) : list Z :=
  if existsb (Z.eqb x) seen then seen else seen ++ [x].

(** [Array.from(new Set(Array.isArray(w) ? w.map(n => Number(n)) : []))],
    [None] standing for a body whose [wishlist] is not an array. *)
Definition normalize_wishlist (w : option (list Z)) : list Z :=
  fold_left set_add (default [] w) [].

(** ** Helpers of the front end ([src/public/js/script.js]) *)

(** The double quote character. *)
Definition dquote : ascii := ascii_of_nat 34.

(** The replacement of one character by [escapeHtml]. *)
Definition escape_char (c : ascii) : string :=
  if Ascii.eqb c "&" then "&amp;"
  else if Ascii.eqb c "<" then "&lt;"
  else if Ascii.eqb c ">" then "&gt;"
  else if Ascii.eqb c dquote then "&quot;"
  else if Ascii.eqb c "'" then "&#39;"
  else String c EmptyString.

(** [s.replace(re, m => map[m])], where [re] matches every ampersand,
    angle bracket, double quote and apostrophe. *)
Fixpoint escape_string (s : string) : string :=
  match s with
  | EmptyString => EmptyString
  | String c r => (escape_char c ++ escape_string r)%string
  end.

(** [escapeHtml(s)], [None] standing for [null] and [undefined]. *)
Definition escapeHtml (s : option string) : string :=
  match s with
  | None => EmptyString
  | Some x => escape_string x
  end.

(** [loadGuestOrderIds()]: the array under the storage key, the empty array
    when the key is missing or does not parse ([None]). *)
Definition loadGuestOrderIds (store : option (list Z)) : list Z :=
  default [] store.

(** [saveGuestOrderId(id)], as a function of the storage. *)
Definition saveGuestOrderId (id : Z) (store : option (list Z))
  : option (list Z) :=
  if id =? 0 then store else
  let arr := loadGuestOrderIds store in
  match find (fun x => x =? id) arr with
  | Some x => if x =? 0 then Some (arr ++ [id])%list else store
  | None => Some (arr ++ [id])%list
  end.

(** [removeGuestOrderId(id)], as a function of the storage. *)
Definition removeGuestOrderId (id : Z) (store : option (list Z))
  : option (list Z) :=
  Some (filter (fun x => negb (x =? id)) (loadGuestOrderIds store)).

(** ** Predicates of the statements *)

(** The messages with which the order handler can fail. *)
Definition order_errors : list string :=
  ["No itemId provided"; "Item not found"; "Not enough stock";
   "Full name required for guest purchases"].


Definition is_lower_or_digit (c : ascii) : bool :=
  let n := nat_of_ascii c in
  ((Nat.leb 97 n && Nat.leb n 122) || (Nat.leb 48 n && Nat.leb n 57))%bool.

(** The sum of the quantities of a list of orders. *)
Definition sum_quantities (os : list Order.t) : Z :=
  fold_right Z.add 0 (map Order.quantity os).

(** How the cascade relates an order before and after: a live order of the
    item is canceled (status and [canceledAt] change, nothing else), every
    other order is left as it is. *)
Definition cascaded (itemId : Z) (o o' : Order.t) : Prop :=
  if live_order_of itemId o then exists ts, o' = Order.cancel ts o
  else o' = o.

(** Stocks and quantities are not negative. *)
Definition nonneg_quantities (d : data) : Prop :=
  Forall (fun it => 0 <= Item.stock it) (items d)
  /\ Forall (fun o => 0 <= Order.quantity o) (orders d).

(** The quantity of an order request, when there is one, is not negative. *)
Definition nonneg_request (rq : request) : Prop :=
  match rq with
  | PlaceOrder _ r => 0 <= default 1 (or_quantity r)
  | _ => True
  end.

(** ** Sample documents *)

(** A password check that accepts [p] against the hash ["hash:" ++ p]. *)
Definition sample_compare (password hash : string) : bool :=
  (hash =? "hash:" ++ password)%string.

(** A fixed clock, and the random indices 3, 4, 5, ... *)
Definition sample_env : env :=
  mkEnv (fun _ => "2024-01-01T00:00:00.000Z") (fun k => (k + 3)%nat).

Definition widget : Item.t := Item.mk 1 "Widget" 1000 5 (Some true).

Definition gadget : Item.t := Item.mk 2 "Gadget" 250 4 None.

(** One account ([admin]), one item (the Widget of the specification's
    scenario, 5 in stock at 10.00) and no order. *)
Definition sample_data : data :=
  mkData [Account.mk "admin" "Administrator" (Some "hash:secret")]
         [widget] [].

Definition admin_cred : credentials := mkCred (Some "admin") (Some "secret").

(** The guest order of two Widgets, live and canceled. *)
Definition live_guest_order : Order.t :=
  Order.mk 1 1 "Widget" "guest" "Ann Lee" 2 2000 processing None
           "2024-01-01T00:00:00.000Z" (Some "defghijklmnopqrstuvwxyz0") None.

Definition canceled_guest_order : Order.t :=
  Order.mk 1 1 "Widget" "guest" "Ann Lee" 2 2000 canceled None
           "2024-01-01T00:00:00.000Z" (Some "defghijklmnopqrstuvwxyz0")
           (Some "2024-01-02T00:00:00.000Z").

(** The sample document after the guest order. *)
Definition sample_ordered : data :=
  mkData (accounts sample_data) [Item.with_stock 3 widget] [live_guest_order].

(** The sample document after the guest order has been canceled. *)
Definition sample_canceled : data :=
  mkData (accounts sample_data) [widget] [canceled_guest_order].

(** A document with two items and four orders: of the Widget, a live guest
    order of 2, an order of 1 canceled earlier and a scheduled order of 1;
    of the Gadget, a live order of 3. *)
Definition sample_busy : data :=
  mkData (accounts sample_data)
         [Item.with_stock 1 widget; gadget]
         [live_guest_order;
          Order.mk 2 1 "Widget" "bob" "bob" 1 1000 canceled None
                   "2024-01-01T01:00:00.000Z" None
                   (Some "2024-01-01T02:00:00.000Z");
          Order.mk 3 2 "Gadget" "bob" "bob" 3 750 processing None
                   "2024-01-01T03:00:00.000Z" None None;
          Order.mk 4 1 "Widget" "eve" "eve" 1 1000 scheduled
                   (Some "2024-01-05") "2024-01-01T04:00:00.000Z" None None].

(** ** Predicates of the further statements *)

(** The ids of the items are distinct and positive, and so are the ids of
    the orders. *)
Definition well_formed_ids (d : data) : Prop :=
  NoDup (map Item.id (items d))
  /\ Forall (fun i => 0 < i) (map Item.id (items d))
  /\ NoDup (map Order.id (orders d))
  /\ Forall (fun i => 0 < i) (map Order.id (orders d)).

(** The quantity reserved on item [itemId]: the sum of the quantities of
    its orders that are not canceled. *)
Definition reserved_for (itemId : Z) (os : list Order.t) : Z :=
  sum_quantities (filter (live_order_of itemId) os).

(** The request is not an arrival update of a canceled order. *)
Definition no_reopen (d : data) (rq : request) : Prop :=
  match rq with
  | UpdateArrival r =>
      forall orderId ord,
        ar_orderId r = Some orderId ->
        find (order_with_id orderId) (orders d) = Some ord ->
        Order.status ord <> canceled
  | _ => True
  end.

(** The part of an order that is written once, when the order is created:
    everything but the status, the arrival date and the cancellation
    date. *)
Definition frozen (o : Order.t)
  : Z * Z * string * string * string * Z * Z * string * option string :=
  (Order.id o, Order.itemId o, Order.itemName o, Order.username o,
   Order.buyerName o, Order.quantity o, Order.amount o, Order.createdAt o,
   Order.cancelToken o).

(** The user names of the accounts are distinct up to letter case. *)
Definition distinct_usernames (d : data) : Prop :=
  NoDup (map (fun a => toLowerCase (Account.username a)) (accounts d)).

(** What is assumed of bcrypt: a password verifies against its own hash,
    whatever the salt, and a hash is not the empty string. *)
Definition bcrypt_ok (compareSync : string -> string -> bool)
           (hashSync : string -> string -> string) : Prop :=
  forall salt p,
    compareSync p (hashSync salt p) = true /\ truthy (hashSync salt p) = true.

(** The characters that [escapeHtml] leaves nowhere in its result. *)
Definition is_markup (c : ascii) : bool :=
  (Ascii.eqb c "<" || Ascii.eqb c ">" || Ascii.eqb c dquote
   || Ascii.eqb c "'")%bool.

(** What the handlers may do to a stored item: the id, the name and the
    price stay, and an item that is inactive stays inactive. *)
Definition item_kept (it it' : Item.t) : Prop :=
  Item.id it' = Item.id it /\ Item.name it' = Item.name it
  /\ Item.price it' = Item.price it
  /\ (Item.is_active it = false -> Item.is_active it' = false).

(** ** The cancel button of the front end ([orderRowElement])

    The request body that a click on the cancel button of an order row
    sends to POST /api/cancel-order, [None] when there is no button or the
    click sends nothing.  [currentUser] and [currentPassword] are the
    fields of [state], [confirmed] the answer to [confirm], [answer] the
    answer to [prompt] ([None] when the prompt is dismissed). *)
Definition cancel_payload (currentUser currentPassword : option string)
           (isGuestLocal confirmed : bool) (answer : option string)
           (ord : Order.t) : option cancel_req :=
  if status_eqb (Order.status ord) canceled then None else
  let cu := default "" currentUser in
  let isAdmin := (truthy cu && (toLowerCase cu =? "admin")%string)%bool in
  let isOwnerRegistered :=
    (truthy cu && negb (toLowerCase cu =? "guest")%string
     && truthy (Order.username ord)
     && (toLowerCase (Order.username ord) =? toLowerCase cu)%string)%bool in
  let isGuestLocalOrder :=
    (isGuestLocal || (Order.username ord =? "guest")%string)%bool in
  if negb (isAdmin || isOwnerRegistered || isGuestLocalOrder)%bool then None
  else if negb confirmed then None
  else if (isAdmin || isOwnerRegistered)%bool then
    Some (mkCancelReq (Some (Order.id ord)) (Some cu)
            (if isAdmin then Some (default "" currentPassword) else None)
            None)
  else
    match answer with
    | Some token =>
        if truthy token
        then Some (mkCancelReq (Some (Order.id ord)) None None
                               (Some (trim token)))
        else None
    | None => None
    end.

(** ** The figures of the admin panel ([renderAdminStats])

    The numbers that the panel shows, computed from the items and orders
    the page holds; [lowStockThreshold] is the value of the threshold
    input, [None] when the input is missing or empty. *)
Record admin_stats := mkStats {
  totalItems : nat;
  activeItems : nat;
  lowStockCount : nat;
  totalOrders : nat;
  processingCount : nat;
  scheduledCount : nat;
  canceledCount : nat;
  revenue : Z
}.

Definition renderAdminStats (its : list Item.t) (os : list Order.t)
           (lowStockThreshold : option Z) : admin_stats :=
  let lowThresh := default 3 lowStockThreshold in
  let count := fun s =>
    List.length (filter (fun o => status_eqb (Order.status o) s) os) in
  mkStats (List.length its)
          (List.length (filter Item.is_active its))
          (List.length (filter (fun i => Item.stock i <=? lowThresh) its))
          (List.length os)
          (count processing) (count scheduled) (count canceled)
          (fold_left (fun s o => s + or_zero (Order.amount o))
                     (filter Order.live os) 0).

(** [fetchAdminData()]: the panel is computed from the answers of
    GET /api/items and GET /api/orders. *)
Definition fetchAdminData (d : data) (lowStockThreshold : option Z)
  : admin_stats :=
  renderAdminStats (get_items d) (orders d) lowStockThreshold.

(** ** The fragment on which the string primitives are exact

    [toLowerCase], [trim] and [String.length] of the embedding act on
    bytes; they agree with JavaScript's [toLowerCase], [trim] and [.length]
    on the strings whose characters are all ASCII. *)
Definition ascii_only (s : string) : bool :=
  forallb (fun c => Nat.ltb (nat_of_ascii c) 128) (list_ascii_of_string s).

(** The ids on which [nextId] computes exactly: JavaScript numbers are
    doubles, and [Math.max(...) + 1] is exact below 2^53. *)
Definition safe_id (i : Z) : Prop := Z.abs i < 2 ^ 53.

(** What the cascade of a takedown does to an order, field by field: a
    live order of the item gets the status [canceled] and a cancellation
    date, and keeps its arrival date and all that is written once; every
    other order is left as it is. *)
Definition cascade_cancels (itemId : Z) (o o' : Order.t) : Prop :=
  if live_order_of itemId o
  then Order.status o' = canceled
       /\ (exists ts, Order.canceledAt o' = Some ts)
       /\ Order.arrivalDate o' = Order.arrivalDate o
       /\ frozen o' = frozen o
  else o' = o.

(** * Properties *)

(** ** The scenarios of the specification *)

(** A guest orders two of the five Widgets and cancels with the token. *)
Example scenario_guest_order_and_cancel :
  post_order sample_env sample_data
             (mkOrderReq (Some "guest") (Some "Ann Lee") (Some 1) (Some 2))
  = (sample_ordered, Json live_guest_order)
  /\ map Item.stock
         (items (fst (post_cancel_order sample_compare sample_env sample_ordered
                        (mkCancelReq (Some 1) None None
                                     (Some "defghijklmnopqrstuvwxyz0")))))
     = [5].
Proof. split; reflexivity. Qed.

(** Two orders of three Widgets in a row: the second one is refused and the
    stock ends at 2. *)
Example scenario_two_orders_of_three :
  let r := mkOrderReq (Some "guest") (Some "Ann Lee") (Some 1) (Some 3) in
  let d1 := fst (post_order sample_env sample_data r) in
  snd (post_order sample_env d1 r) = Error 400 "Not enough stock"
  /\ map Item.stock (items (fst (post_order sample_env d1 r))) = [2].
Proof. split; reflexivity. Qed.

(** ** Basic facts about the primitives *)

Lemma or_zero_id (x : Z) : or_zero x = x.
Proof. unfold or_zero. destruct (Z.eqb_spec x 0); congruence. Qed.

Lemma status_eqb_spec (a b : order_status) : reflect (a = b) (status_eqb a b).
Proof. destruct a, b; simpl; constructor; congruence. Qed.

Lemma find_update_first {A} (p : A -> bool) (f : A -> A) (l : list A) (x : A) :
  find p l = Some x -> p (f x) = true ->
  find p (update_first p f l) = Some (f x).
Proof.
  unfold find. induction l as [|y r IH]; simpl; [discriminate|].
  destruct (p y) eqn:Hy; intros Hx Hf.
  - injection Hx as ->. simpl. now rewrite Hf.
  - simpl. rewrite Hy. auto.
Qed.

Lemma Forall_update_first {A} (P : A -> Prop) (p : A -> bool) (f : A -> A)
      (l : list A) :
  Forall P l -> (forall x, find p l = Some x -> P (f x)) ->
  Forall P (update_first p f l).
Proof.
  unfold find. induction l as [|y r IH]; simpl; intros Hl Hf; [constructor|].
  inversion Hl; subst. destruct (p y) eqn:Hy.
  - constructor; auto.
  - constructor; auto.
Qed.

(** ** Failures of the order handler *)

(** C9: an order for more than the stock of the active item it selects is
    answered with [400 Not enough stock], and the document is unchanged: the
    item found under that id afterwards is the same item, with the stock it
    had, and the list of orders is the one before the call.  The quantity is
    the request's, or 1 when the request has none. *)
Theorem order_insufficient_stock (e : env) (d : data) (r : order_req)
        (itemId : Z) (item : Item.t) :
  or_itemId r = Some itemId -> itemId <> 0 ->
  find (active_item_with_id itemId) (items d) = Some item ->
  Item.stock item < default 1 (or_quantity r) ->
  post_order e d r = (d, Error 400 "Not enough stock")
  /\ find (active_item_with_id itemId) (items (fst (post_order e d r)))
     = Some item
  /\ orders (fst (post_order e d r)) = orders d.
Proof.
  intros Hid Hnz Hfind Hlt.
  assert (H : post_order e d r = (d, Error 400 "Not enough stock")).
  { unfold post_order.
    rewrite Hid. destruct (Z.eqb_spec itemId 0) as [|_]; [contradiction|].
    rewrite Hfind.
    destruct (Z.ltb_spec (Item.stock item) (default 1 (or_quantity r)));
      [reflexivity|lia]. }
  rewrite H. cbn [fst]. auto.
Qed.

Lemma order_insufficient_stock_witness :
  post_order sample_env sample_data (mkOrderReq None (Some "Ann Lee") (Some 1) (Some 6))
  = (sample_data, Error 400 "Not enough stock")
  /\ find (active_item_with_id 1)
       (items (fst (post_order sample_env sample_data
                      (mkOrderReq None (Some "Ann Lee") (Some 1) (Some 6)))))
     = Some widget
  /\ orders (fst (post_order sample_env sample_data
                    (mkOrderReq None (Some "Ann Lee") (Some 1) (Some 6))))
     = orders sample_data.
Proof.
  apply (order_insufficient_stock sample_env sample_data _ 1 widget);
    [reflexivity | discriminate | reflexivity | simpl; lia].
Defined.

(** The order handler either fails with one of [order_errors], leaving
    the document as it is, or answers with the order. *)
Lemma post_order_cases (e : env) (d : data) (r : order_req) :
  (exists msg, post_order e d r = (d, Error 400 msg) /\ In msg order_errors)
  \/ (exists o, snd (post_order e d r) = Json o).
Proof.
  unfold post_order, order_errors.
  destruct (or_itemId r) as [itemId|]; [|left; eexists; simpl; eauto].
  destruct (itemId =? 0); [left; eexists; simpl; eauto|].
  destruct (find _ (items d)) as [item|]; [|left; eexists; simpl; eauto].
  destruct (Item.stock item <? _); [left; eexists; simpl; eauto 6|].
  destruct (resolve_buyer _ _ _); [|left; eexists; simpl; eauto 7].
  right. eexists. reflexivity.
Qed.

(** C2 (as the code has it): the order handler has no invalid-quantity
    failure.  A call that fails does so with status 400 and one of the four
    messages of [order_errors], and a call that fails leaves the document
    unchanged, whatever the quantity. *)
Theorem order_failure_is_atomic (e : env) (d : data) (r : order_req)
        (code : Z) (msg : string) :
  snd (post_order e d r) = Error code msg ->
  fst (post_order e d r) = d /\ code = 400 /\ In msg order_errors.
Proof.
  intros H. destruct (post_order_cases e d r) as [(m & Hm & Hin)|(o & Ho)].
  - rewrite Hm in *. simpl in *. injection H as <- <-. auto.
  - rewrite Ho in H. discriminate.
Qed.

Lemma order_failure_is_atomic_witness :
  fst (post_order sample_env sample_data (mkOrderReq None None (Some 1) (Some 0)))
  = sample_data
  /\ 400 = 400
  /\ In "Full name required for guest purchases" order_errors.
Proof.
  apply (order_failure_is_atomic sample_env sample_data
           (mkOrderReq None None (Some 1) (Some 0))).
  reflexivity.
Defined.

(** C2 (as stated) fails: a request for the quantity [-2] is not refused.
    The order is created and the stock of the Widget goes from 5 to 7. *)
Lemma order_nonpositive_quantity_accepted :
  exists o,
    post_order sample_env sample_data
               (mkOrderReq (Some "bob") None (Some 1) (Some (-2)))
    = (mkData (accounts sample_data) [Item.with_stock 7 widget] [o], Json o)
    /\ Order.quantity o = -2
    /\ Item.stock widget = 5.
Proof. eexists. repeat split. Qed.

(** ** Failures of the cancel handler *)

(** C6: cancelling an order that is already canceled is answered with
    [400 Order already canceled] and the document is unchanged; in
    particular no stock is restored a second time. *)
Theorem cancel_already_canceled (cmp : string -> string -> bool) (e : env)
        (d : data) (r : cancel_req) (orderId : Z) (ord : Order.t) :
  cr_orderId r = Some orderId -> orderId <> 0 ->
  find (order_with_id orderId) (orders d) = Some ord ->
  Order.status ord = canceled ->
  post_cancel_order cmp e d r = (d, Error 400 "Order already canceled").
Proof.
  intros Hid Hnz Hfind Hst. unfold post_cancel_order.
  rewrite Hid. destruct (Z.eqb_spec orderId 0) as [|_]; [contradiction|].
  rewrite Hfind, Hst. reflexivity.
Qed.

Lemma cancel_already_canceled_witness :
  post_cancel_order sample_compare sample_env sample_canceled
    (mkCancelReq (Some 1) None None (Some "defghijklmnopqrstuvwxyz0"))
  = (sample_canceled, Error 400 "Order already canceled").
Proof.
  apply (cancel_already_canceled sample_compare sample_env sample_canceled _ 1
           canceled_guest_order);
    [reflexivity | discriminate | reflexivity | reflexivity].
Defined.



(** ** Successful orders *)

(** What the document and the response are when the order handler
    succeeds. *)
Lemma post_order_success (e : env) (d : data) (r : order_req)
      (itemId : Z) (item : Item.t) (buyerName : string) :
  or_itemId r = Some itemId -> itemId <> 0 ->
  find (active_item_with_id itemId) (items d) = Some item ->
  default 1 (or_quantity r) <= Item.stock item ->
  resolve_buyer d (default "guest" (or_username r)) (or_buyerFullName r)
  = Some buyerName ->
  let q := default 1 (or_quantity r) in
  let o := new_order e d (Item.with_stock (Item.stock item - q) item)
                     (default "guest" (or_username r)) buyerName q in
  post_order e d r
  = (mkData (accounts d)
            (update_first (active_item_with_id itemId)
                          (Item.with_stock (Item.stock item - q)) (items d))
            (orders d ++ [o]),
     Json o).
Proof.
  intros Hid Hnz Hfind Hle Hbuyer. unfold post_order.
  rewrite Hid. destruct (Z.eqb_spec itemId 0) as [|_]; [contradiction|].
  rewrite Hfind.
  destruct (Z.ltb_spec (Item.stock item) (default 1 (or_quantity r))); [lia|].
  rewrite Hbuyer. reflexivity.
Qed.

(** Conversely, a successful response determines the path that was taken. *)
Lemma post_order_inv (e : env) (d d' : data) (r : order_req) (o : Order.t) :
  post_order e d r = (d', Json o) ->
  exists itemId item buyerName,
    or_itemId r = Some itemId /\ itemId <> 0
    /\ find (active_item_with_id itemId) (items d) = Some item
    /\ default 1 (or_quantity r) <= Item.stock item
    /\ resolve_buyer d (default "guest" (or_username r)) (or_buyerFullName r)
       = Some buyerName
    /\ o = new_order e d
             (Item.with_stock (Item.stock item - default 1 (or_quantity r)) item)
             (default "guest" (or_username r)) buyerName
             (default 1 (or_quantity r))
    /\ d' = mkData (accounts d)
              (update_first (active_item_with_id itemId)
                 (Item.with_stock (Item.stock item - default 1 (or_quantity r)))
                 (items d))
              (orders d ++ [o]).
Proof.
  unfold post_order.
  destruct (or_itemId r) as [itemId|]; [|discriminate].
  destruct (Z.eqb_spec itemId 0) as [|Hnz]; [discriminate|].
  destruct (find _ (items d)) as [item|] eqn:Hfind; [|discriminate].
  destruct (Z.ltb_spec (Item.stock item) (default 1 (or_quantity r)));
    [discriminate|].
  destruct (resolve_buyer _ _ _) as [buyerName|] eqn:Hb; [|discriminate].
  intros [= <- <-]. exists itemId, item, buyerName. repeat split; auto.
Qed.

(** ** Cancel tokens *)

Lemma alphabet_symbols :
  String.length alphabet = 36%nat
  /\ NoDup (list_ascii_of_string alphabet)
  /\ forallb is_lower_or_digit (list_ascii_of_string alphabet) = true.
Proof.
  split; [reflexivity|]. split; [|reflexivity].
  simpl. repeat (constructor; [simpl; intuition discriminate|]). constructor.
Qed.

Lemma get_in_range (s : string) (n : nat) :
  (n < String.length s)%nat ->
  exists c, String.get n s = Some c /\ In c (list_ascii_of_string s).
Proof.
  revert n. induction s as [|a s IH]; simpl; intros n Hn; [lia|].
  destruct n as [|n].
  - exists a. auto.
  - destruct (IH n) as (c & Hc & Hin); [lia|]. exists c. auto.
Qed.

Lemma join_all_some (f : nat -> option ascii) (P : ascii -> Prop)
      (ks : list nat) :
  (forall k, In k ks -> exists c, f k = Some c /\ P c) ->
  String.length (join (map f ks)) = List.length ks
  /\ Forall P (list_ascii_of_string (join (map f ks))).
Proof.
  induction ks as [|k ks IH]; simpl; intros H; [auto|].
  destruct (H k) as (c & Hc & HP); [auto|]. rewrite Hc. simpl.
  destruct IH as [IH1 IH2]; [auto|]. split; [congruence|auto].
Qed.

Lemma generateCancelToken_shape (e : env) :
  (forall k, (k < 24)%nat -> (rand36 e k < 36)%nat) ->
  String.length (generateCancelToken e) = 24%nat
  /\ Forall (fun c => In c (list_ascii_of_string alphabet))
            (list_ascii_of_string (generateCancelToken e)).
Proof.
  intros Hr. unfold generateCancelToken.
  pose proof (join_all_some (fun k => String.get (rand36 e k) alphabet)
                (fun c => In c (list_ascii_of_string alphabet)) (seq 0 24)) as H.
  rewrite length_seq in H. apply H. intros k Hk. apply in_seq in Hk.
  apply get_in_range. change (String.length alphabet) with 36%nat.
  apply Hr. lia.
Qed.

(** C7: an order created by the order handler carries a cancel token
    exactly when its user name is ["guest"]; the token has 24 characters,
    each one of the 36 symbols of [alphabet], which are the lower-case
    letters and the digits.  The random indices are those of
    [Math.floor(Math.random()*36)], below 36. *)
Theorem order_cancel_token (e : env) (d d' : data) (r : order_req)
        (o : Order.t) :
  (forall k, (k < 24)%nat -> (rand36 e k < 36)%nat) ->
  post_order e d r = (d', Json o) ->
  (Order.cancelToken o <> None <-> Order.username o = "guest")
  /\ (forall t, Order.cancelToken o = Some t ->
        String.length t = 24%nat
        /\ Forall (fun c => In c (list_ascii_of_string alphabet)
                            /\ is_lower_or_digit c = true)
                  (list_ascii_of_string t))
  /\ String.length alphabet = 36%nat.
Proof.
  intros Hr Hpost.
  destruct (post_order_inv _ _ _ _ _ Hpost)
    as (itemId & item & buyerName & _ & _ & _ & _ & _ & -> & _).
  unfold new_order; simpl.
  set (u := default "guest" (or_username r)).
  split; [|split; [|reflexivity]].
  - unfold non_guest. destruct (truthy u) eqn:Ht; simpl; [|now intuition].
    destruct (String.eqb_spec (toLowerCase u) "guest") as [Hg|Hg]; simpl.
    + now intuition.
    + rewrite Ht. simpl.
      destruct (String.eqb_spec (toLowerCase u) "guest"); [contradiction|].
      split; [congruence|]. intros ->. now elim Hg.
  - intros t Ht.
    assert (t = generateCancelToken e) as ->.
    { destruct (_ || _)%bool in Ht; congruence. }
    destruct (generateCancelToken_shape e Hr) as [Hlen Hall].
    split; [exact Hlen|].
    destruct alphabet_symbols as (_ & _ & Hld).
    rewrite forallb_forall in Hld.
    eapply Forall_impl; [|exact Hall].
    intros c Hc. split; [exact Hc|exact (Hld c Hc)].
Qed.

Lemma order_cancel_token_witness :
  (Order.cancelToken live_guest_order <> None
   <-> Order.username live_guest_order = "guest")
  /\ (forall t, Order.cancelToken live_guest_order = Some t ->
        String.length t = 24%nat
        /\ Forall (fun c => In c (list_ascii_of_string alphabet)
                            /\ is_lower_or_digit c = true)
                  (list_ascii_of_string t))
  /\ String.length alphabet = 36%nat.
Proof.
  apply (order_cancel_token sample_env sample_data sample_ordered
           (mkOrderReq None (Some " Ann Lee ") (Some 1) (Some 2))).
  - intros k Hk. simpl. lia.
  - reflexivity.
Defined.

(** ** Fresh order ids *)

Lemma Math_max_ge (xs : list Z) (x : Z) :
  x <= Math_max x xs /\ Forall (fun y => y <= Math_max x xs) xs.
Proof.
  unfold Math_max. revert x. induction xs as [|y ys IH]; simpl; intros x.
  - split; [lia|constructor].
  - destruct (IH (Z.max x y)) as [H1 H2]. split; [lia|].
    constructor; [lia|exact H2].
Qed.

Lemma nextId_above (ids : list Z) : Forall (fun i => i < nextId ids) ids.
Proof.
  unfold nextId. destruct ids as [|x xs]; simpl; [constructor|].
  destruct (Math_max_ge (map or_zero xs) (or_zero x)) as [H1 H2].
  rewrite or_zero_id in *. constructor; [lia|].
  rewrite Forall_map in H2. eapply Forall_impl; [|exact H2].
  intros y Hy. simpl in Hy. rewrite or_zero_id in Hy. lia.
Qed.

Lemma nextId_positive (ids : list Z) :
  Forall (fun i => 0 < i) ids -> 0 < nextId ids.
Proof.
  intros H. pose proof (nextId_above ids) as Ha.
  destruct ids as [|x xs]; [reflexivity|].
  inversion H; subst. inversion Ha; subst. lia.
Qed.

Lemma find_fresh_order (os : list Order.t) (o : Order.t) :
  Order.id o = nextId (map Order.id os) ->
  find (order_with_id (Order.id o)) os = None
  /\ find (order_with_id (Order.id o)) (os ++ [o]) = Some o.
Proof.
  intros Hid. pose proof (nextId_above (map Order.id os)) as Ha.
  rewrite <- Hid, Forall_map in Ha. unfold find.
  assert (Hnone : List.find (order_with_id (Order.id o)) os = None).
  { clear Hid. induction Ha as [|x r Hx Hr IH]; simpl; [reflexivity|].
    unfold order_with_id at 1.
    destruct (Z.eqb_spec (Order.id x) (Order.id o)); [lia|exact IH]. }
  split; [exact Hnone|].
  clear Ha Hid. induction os as [|x r IH]; simpl in *.
  - unfold order_with_id. now rewrite Z.eqb_refl.
  - destruct (order_with_id (Order.id o) x); [discriminate|auto].
Qed.

Lemma update_first_app_last {A} (p : A -> bool) (f : A -> A) (l : list A)
      (x : A) :
  find p l = None -> p x = true -> update_first p f (l ++ [x]) = (l ++ [f x])%list.
Proof.
  unfold find. induction l as [|y r IH]; simpl; intros Hn Hx.
  - now rewrite Hx.
  - destruct (p y); [discriminate|]. now rewrite IH.
Qed.

(** ** Reserve followed by restore *)

Lemma restore_reserve (item : Item.t) (q : Z) :
  restore q (Item.with_stock (Item.stock item - q) item) = item.
Proof.
  destruct item. unfold restore, Item.with_stock. simpl.
  rewrite !or_zero_id. f_equal. lia.
Qed.

Lemma update_first_restore (l : list Item.t) (itemId q : Z) (item : Item.t) :
  NoDup (map Item.id l) ->
  find (active_item_with_id itemId) l = Some item ->
  update_first (item_with_id itemId) (restore q)
    (update_first (active_item_with_id itemId)
                  (Item.with_stock (Item.stock item - q)) l)
  = l.
Proof.
  unfold find. induction l as [|x r IH]; simpl; intros Hnd Hf; [discriminate|].
  inversion Hnd as [|? ? Hnotin Hnd']; subst.
  destruct (active_item_with_id itemId x) eqn:Hx.
  - injection Hf as ->. simpl.
    unfold active_item_with_id in Hx. apply andb_true_iff in Hx as [Hx _].
    unfold item_with_id at 1. simpl. rewrite Hx. now rewrite restore_reserve.
  - simpl. unfold item_with_id at 1.
    destruct (Z.eqb_spec (Item.id x) itemId) as [Heq|Hne].
    + exfalso. apply Hnotin. apply find_some in Hf as [Hin Hp].
      unfold active_item_with_id in Hp. apply andb_true_iff in Hp as [Hp _].
      apply Z.eqb_eq in Hp. rewrite Heq, <- Hp. now apply in_map.
    + now rewrite IH.
Qed.

(** C3: on a document whose item ids are distinct and whose order ids are
    positive, an order for a quantity that does not exceed the stock of the
    active item (a positive one in particular) is placed, and a cancel
    request for that order that the handler authorizes, sent next, succeeds
    and puts every item, hence the stock of the ordered one, back to what it
    was before the order. *)
Theorem order_then_cancel_restores_stock
        (cmp : string -> string -> bool) (e1 e2 : env) (d : data)
        (r : order_req) (itemId : Z) (item : Item.t) (buyerName : string) :
  NoDup (map Item.id (items d)) ->
  Forall (fun o => 0 < Order.id o) (orders d) ->
  or_itemId r = Some itemId -> itemId <> 0 ->
  find (active_item_with_id itemId) (items d) = Some item ->
  default 1 (or_quantity r) <= Item.stock item ->
  resolve_buyer d (default "guest" (or_username r)) (or_buyerFullName r)
  = Some buyerName ->
  exists d1 o,
    post_order e1 d r = (d1, Json o)
    /\ find (item_with_id itemId) (items d1)
       = Some (Item.with_stock (Item.stock item - default 1 (or_quantity r))
                               item)
    /\ forall cr : cancel_req,
        cr_orderId cr = Some (Order.id o) ->
        authorized cmp d1 (default "" (cr_username cr))
                   (default "" (cr_password cr)) (cr_cancelToken cr) o = true ->
        exists d2,
          post_cancel_order cmp e2 d1 cr
          = (d2, Json (Order.cancel (now e2 0) o))
          /\ items d2 = items d
          /\ find (item_with_id itemId) (items d2) = Some item.
Proof.
  intros Hnd Hpos Hid Hnz Hfind Hle Hbuyer.
  pose proof (post_order_success e1 d r itemId item buyerName
                Hid Hnz Hfind Hle Hbuyer) as Hpost.
  cbv zeta in Hpost.
  set (q := default 1 (or_quantity r)) in *.
  set (o := new_order e1 d (Item.with_stock (Item.stock item - q) item)
                      (default "guest" (or_username r)) buyerName q) in *.
  assert (Hbyid : forall l, NoDup (map Item.id l) ->
            find (active_item_with_id itemId) l = Some item ->
            find (item_with_id itemId) l = Some item).
  { unfold find. induction l as [|x l IH]; simpl; [discriminate|].
    intros Hn Hf. inversion Hn as [|? ? Hnotin Hn']; subst.
    unfold item_with_id at 1.
    destruct (active_item_with_id itemId x) eqn:Hx.
    - unfold active_item_with_id in Hx. apply andb_true_iff in Hx as [Hx _].
      now rewrite Hx.
    - destruct (Z.eqb_spec (Item.id x) itemId) as [Heq|Hne]; [|auto].
      exfalso. apply Hnotin. apply find_some in Hf as [Hin Hp].
      unfold active_item_with_id in Hp. apply andb_true_iff in Hp as [Hp _].
      apply Z.eqb_eq in Hp. rewrite Heq, <- Hp. now apply in_map. }
  eexists _, o. split; [exact Hpost|]. split.
  { simpl.
    pose proof (Hbyid _ Hnd Hfind) as Hfi.
    clear - Hfind Hfi. revert Hfind Hfi. unfold find.
    induction (items d) as [|x l IH]; simpl; [discriminate|].
    unfold item_with_id at 1.
    destruct (active_item_with_id itemId x) eqn:Hx.
    - intros [= ->] _. simpl. unfold item_with_id. simpl.
      unfold active_item_with_id in Hx. apply andb_true_iff in Hx as [Hx _].
      now rewrite Hx.
    - destruct (Z.eqb_spec (Item.id x) itemId) as [Heq|Hne].
      + intros Hf [= ->]. apply find_some in Hf as [_ Hp]. congruence.
      + intros Hf Hfi. simpl. unfold item_with_id at 1.
        destruct (Z.eqb_spec (Item.id x) itemId); [contradiction|]. auto. }
  intros cr Hcr Hauth.
  assert (Hoid : Order.id o = nextId (map Order.id (orders d))) by reflexivity.
  destruct (find_fresh_order (orders d) o Hoid) as [Hnone Hsome].
  assert (Hnz' : Order.id o <> 0).
  { rewrite Hoid. pose proof (nextId_positive (map Order.id (orders d))) as Hp.
    rewrite Forall_map in Hp. specialize (Hp Hpos). lia. }
  unfold post_cancel_order. rewrite Hcr.
  destruct (Z.eqb_spec (Order.id o) 0) as [|_]; [contradiction|].
  cbn [orders items accounts]. rewrite Hsome.
  change (status_eqb (Order.status o) canceled) with false. cbv iota.
  rewrite Hauth. cbn [negb].
  change (Order.itemId o) with (Item.id item).
  change (Order.quantity o) with q.
  assert (Hitem : Item.id item = itemId).
  { apply find_some in Hfind as [_ Hp]. unfold active_item_with_id in Hp.
    apply andb_true_iff in Hp as [Hp _]. now apply Z.eqb_eq in Hp. }
  rewrite Hitem, (update_first_restore _ _ _ _ Hnd Hfind).
  eexists. split; [reflexivity|]. split; [reflexivity|].
  cbn [items]. auto.
Qed.

Lemma order_then_cancel_restores_stock_witness :
  exists d2,
    post_cancel_order sample_compare sample_env sample_ordered
      (mkCancelReq (Some 1) None None (Some "defghijklmnopqrstuvwxyz0"))
    = (d2, Json (Order.cancel (now sample_env 0) live_guest_order))
    /\ items d2 = items sample_data
    /\ find (item_with_id 1) (items d2) = Some widget.
Proof.
  destruct (order_then_cancel_restores_stock sample_compare sample_env
              sample_env sample_data
              (mkOrderReq None (Some " Ann Lee ") (Some 1) (Some 2))
              1 widget "Ann Lee")
    as (d1 & o & Hpost & _ & Hcancel).
  - simpl. constructor; [intros []|constructor].
  - constructor.
  - reflexivity.
  - discriminate.
  - reflexivity.
  - simpl. lia.
  - reflexivity.
  - change (post_order sample_env sample_data
              (mkOrderReq None (Some " Ann Lee ") (Some 1) (Some 2)))
      with (sample_ordered, Json live_guest_order) in Hpost.
    injection Hpost as <- <-.
    apply Hcancel; reflexivity.
Defined.

(** ** Orders under a user name that has no account *)




(** ** Taking an item down *)

Lemma sum_quantities_cons (o : Order.t) (os : list Order.t) :
  sum_quantities (o :: os) = Order.quantity o + sum_quantities os.
Proof. reflexivity. Qed.

Lemma cascaded_cancels (itemId : Z) (os os' : list Order.t) :
  Forall2 (cascaded itemId) os os' -> Forall2 (cascade_cancels itemId) os os'.
Proof.
  induction 1 as [|o o' l l' Ho Hl IH]; constructor; [|exact IH].
  unfold cascaded in Ho. unfold cascade_cancels.
  destruct (live_order_of itemId o); [|exact Ho].
  destruct Ho as [ts ->]. simpl. eauto.
Qed.

Lemma cascade_spec (e : env) (itemId : Z) (os : list Order.t) (s c : Z) :
  let live := filter (live_order_of itemId) os in
  exists os',
    cascade e itemId os s c
    = (os', s + sum_quantities live, c + Z.of_nat (List.length live))
    /\ Forall2 (cascaded itemId) os os'.
Proof.
  cbv zeta. revert s c. induction os as [|o r IH]; intros s c.
  - exists []. split; [|constructor]. cbn. now rewrite !Z.add_0_r.
  - cbn [cascade filter]. destruct (live_order_of itemId o) eqn:Hl.
    + destruct (IH (or_zero s + or_zero (Order.quantity o)) (c + 1))
        as (os' & Hc & HF).
      rewrite Hc. eexists. split.
      * rewrite !or_zero_id, sum_quantities_cons.
        cbn [List.length]. rewrite Nat2Z.inj_succ.
        f_equal; [f_equal|]; lia.
      * constructor; [|exact HF]. unfold cascaded. rewrite Hl. eauto.
    + destruct (IH s c) as (os' & Hc & HF).
      rewrite Hc. eexists. split; [reflexivity|].
      constructor; [|exact HF]. unfold cascaded. now rewrite Hl.
Qed.

(** C4: taking down an existing item, with admin credentials, sets the item
    inactive, cancels exactly the orders of that item that are not canceled
    yet, adds exactly the sum of their quantities to the stock of the item
    and reports their number; any other order, an order of that item that
    was canceled before in particular, is left as it is and adds nothing to
    the stock. *)
Theorem takedown_restores_live_orders (cmp : string -> string -> bool)
        (e : env) (d : data) (r : takedown_req) (itemId : Z) (item : Item.t) :
  checkAdmin cmp d (tr_cred r) = true ->
  tr_itemId r = Some itemId ->
  find (item_with_id itemId) (items d) = Some item ->
  let live := filter (live_order_of (Item.id item)) (orders d) in
  exists d',
    post_takedown_item cmp e d r
    = (d', Json (mkTakedownRes true (Z.of_nat (List.length live))))
    /\ find (item_with_id itemId) (items d')
       = Some (Item.mk (Item.id item) (Item.name item) (Item.price item)
                       (Item.stock item + sum_quantities live) (Some false))
    /\ Forall2 (cascaded (Item.id item)) (orders d) (orders d')
    /\ Forall2 (cascade_cancels (Item.id item)) (orders d) (orders d').
Proof.
  intros Hadm Hid Hfind live. unfold post_takedown_item.
  rewrite Hadm, Hid, Hfind. cbn [negb].
  destruct (cascade_spec e (Item.id item) (orders d) (Item.stock item) 0)
    as (os' & Hc & HF).
  rewrite Hc. eexists. split; [reflexivity|].
  split; [|split; [exact HF|exact (cascaded_cancels _ _ _ HF)]].
  cbn [items].
  rewrite (find_update_first _ _ _ _ Hfind).
  - reflexivity.
  - apply find_some in Hfind as [_ Hp]. exact Hp.
Qed.

Lemma takedown_restores_live_orders_witness :
  exists d',
    post_takedown_item sample_compare sample_env sample_busy
                       (mkTakedownReq admin_cred (Some 1))
    = (d', Json (mkTakedownRes true 2))
    /\ find (item_with_id 1) (items d')
       = Some (Item.mk 1 "Widget" 1000 4 (Some false))
    /\ Forall2 (cascaded 1) (orders sample_busy) (orders d')
    /\ Forall2 (cascade_cancels 1) (orders sample_busy) (orders d').
Proof.
  apply (takedown_restores_live_orders sample_compare sample_env sample_busy
           (mkTakedownReq admin_cred (Some 1)) 1 (Item.with_stock 1 widget));
    reflexivity.
Defined.

(** ** Where the code departs from the specification *)

(** C1, at a failing input.  The order handler compares the stock with the
    quantity but never looks at the sign of the quantity.  On an item with
    stock 0, an order of -5 is accepted and raises the stock to 5, an order
    of 5 takes it back to 0, and cancelling the first order then adds its
    quantity, -5: the stock ends at -5. *)
Theorem negative_quantity_drives_stock_negative :
  let d0 := mkData [] [Item.with_stock 0 widget] [] in
  let rqs :=
    [PlaceOrder sample_env (mkOrderReq (Some "bob") None (Some 1) (Some (-5)));
     PlaceOrder sample_env (mkOrderReq (Some "bob") None (Some 1) (Some 5));
     CancelOrder sample_env (mkCancelReq (Some 1) (Some "bob") None None)] in
  map Item.stock (items d0) = [0]
  /\ map Item.stock (items (run sample_compare d0 rqs)) = [-5].
Proof. split; reflexivity. Qed.

(** C5, at a failing input.  The arrival handler sets the status from the
    date alone, without looking at the current status: on the canceled
    order of [sample_canceled] the admin's request with a date makes it
    [scheduled], one without a date makes it [processing].  The order can
    then be canceled again, and its quantity is restored a second time
    (the Widget's stock goes from 5 to 7). *)
Theorem update_arrival_reopens_canceled_order :
  let with_date := mkArrivalReq admin_cred (Some 1) (Some "2024-02-01") in
  let without_date := mkArrivalReq admin_cred (Some 1) None in
  let d1 := fst (post_update_arrival sample_compare sample_canceled without_date) in
  let cancel := mkCancelReq (Some 1) None None (Some "defghijklmnopqrstuvwxyz0") in
  map Order.status (orders sample_canceled) = [canceled]
  /\ map Order.status
         (orders (fst (post_update_arrival sample_compare sample_canceled
                                           with_date)))
     = [scheduled]
  /\ map Order.status (orders d1) = [processing]
  /\ map Item.stock (items d1) = [5]
  /\ map Item.stock
         (items (fst (post_cancel_order sample_compare sample_env d1 cancel)))
     = [7].
Proof. repeat split; reflexivity. Qed.

(** ** What the handlers do keep *)

Lemma post_cancel_order_cases (cmp : string -> string -> bool) (e : env)
      (d : data) (r : cancel_req) :
  (exists code msg, post_cancel_order cmp e d r = (d, Error code msg))
  \/ (exists orderId ord,
        find (order_with_id orderId) (orders d) = Some ord
        /\ Order.status ord <> canceled
        /\ post_cancel_order cmp e d r
           = (mkData (accounts d)
                     (update_first (item_with_id (Order.itemId ord))
                                   (restore (Order.quantity ord)) (items d))
                     (update_first (order_with_id orderId)
                                   (Order.cancel (now e 0)) (orders d)),
              Json (Order.cancel (now e 0) ord))).
Proof.
  unfold post_cancel_order.
  destruct (cr_orderId r) as [orderId|]; [|left; eauto].
  destruct (orderId =? 0); [left; eauto|].
  destruct (find _ (orders d)) as [ord|] eqn:Hf; [|left; eauto].
  destruct (status_eqb_spec (Order.status ord) canceled); [left; eauto|].
  destruct (authorized _ _ _ _ _ _); simpl; [|left; eauto].
  right. exists orderId, ord. auto.
Qed.

Lemma post_update_arrival_orders (cmp : string -> string -> bool) (d : data)
      (r : arrival_req) :
  items (fst (post_update_arrival cmp d r)) = items d
  /\ map Order.quantity (orders (fst (post_update_arrival cmp d r)))
     = map Order.quantity (orders d).
Proof.
  unfold post_update_arrival.
  destruct (checkAdmin cmp d (ar_cred r)); simpl; [|auto].
  destruct (ar_orderId r) as [orderId|]; simpl; [|auto].
  destruct (find _ (orders d)); simpl; [|auto]. split; [reflexivity|].
  induction (orders d) as [|x l IH]; simpl; [reflexivity|].
  destruct (order_with_id orderId x); simpl; [|now rewrite IH].
  now destruct (truthy_opt _).
Qed.

Lemma post_takedown_item_cases (cmp : string -> string -> bool) (e : env)
      (d : data) (r : takedown_req) :
  (exists code msg, post_takedown_item cmp e d r = (d, Error code msg))
  \/ (exists itemId item os',
        find (item_with_id itemId) (items d) = Some item
        /\ Forall2 (cascaded (Item.id item)) (orders d) os'
        /\ fst (post_takedown_item cmp e d r)
           = mkData (accounts d)
               (update_first (item_with_id itemId)
                  (fun i =>
                     Item.with_stock
                       (Item.stock item
                        + sum_quantities
                            (filter (live_order_of (Item.id item)) (orders d)))
                       (Item.with_active (Some false) i))
                  (items d))
               os').
Proof.
  unfold post_takedown_item, admin_required.
  destruct (checkAdmin cmp d (tr_cred r)); simpl; [|left; eauto].
  destruct (tr_itemId r) as [itemId|]; [|left; eauto].
  destruct (find _ (items d)) as [item|] eqn:Hf; [|left; eauto].
  destruct (cascade_spec e (Item.id item) (orders d) (Item.stock item) 0)
    as (os' & Hc & HF).
  rewrite Hc. right. exists itemId, item, os'.
  split; [exact Hf|]. split; [exact HF|reflexivity].
Qed.

Lemma sum_quantities_nonneg (os : list Order.t) :
  Forall (fun o => 0 <= Order.quantity o) os -> 0 <= sum_quantities os.
Proof.
  induction 1 as [|o l Ho Hl IH]; [reflexivity|].
  rewrite sum_quantities_cons. lia.
Qed.

Lemma cascaded_quantity (itemId : Z) (os os' : list Order.t) :
  Forall2 (cascaded itemId) os os' ->
  map Order.quantity os' = map Order.quantity os.
Proof.
  induction 1 as [|o o' l l' Ho Hl IH]; simpl; [reflexivity|].
  rewrite IH. f_equal. unfold cascaded in Ho.
  destruct (live_order_of itemId o); [destruct Ho as [ts ->]|subst];
    reflexivity.
Qed.

Lemma Forall_quantity (os os' : list Order.t) :
  map Order.quantity os' = map Order.quantity os ->
  Forall (fun o => 0 <= Order.quantity o) os ->
  Forall (fun o => 0 <= Order.quantity o) os'.
Proof.
  intros Heq H.
  apply (Forall_map Order.quantity (fun q => 0 <= q)).
  rewrite Heq. now apply Forall_map.
Qed.

(** Every handler keeps stocks and quantities non-negative, as long as no
    order is placed for a negative quantity. *)
Lemma step_nonneg_quantities (cmp : string -> string -> bool) (d : data)
      (rq : request) :
  nonneg_quantities d -> nonneg_request rq ->
  nonneg_quantities (step cmp d rq).
Proof.
  intros [Hi Ho] Hrq. destruct rq as [e r|e r|r|e r]; simpl in *.
  - destruct (post_order e d r) as [d' [o|code msg]] eqn:Hp.
    + destruct (post_order_inv _ _ _ _ _ Hp)
        as (itemId & item & buyer & _ & _ & Hf & Hle & _ & -> & ->).
      split; simpl.
      * apply Forall_update_first; [exact Hi|]. intros x _. simpl. lia.
      * apply Forall_app. split; [exact Ho|]. constructor; [exact Hrq|constructor].
    + destruct (post_order_cases e d r) as [(m & Hm & _)|(o & Hj)].
      * rewrite Hm in Hp. injection Hp as <- _ _. now split.
      * rewrite Hp in Hj. discriminate.
  - destruct (post_cancel_order_cases cmp e d r)
      as [(code & msg & ->)|(orderId & ord & Hf & _ & ->)]; [now split|].
    split; simpl.
    + apply find_some in Hf as [Hin _].
      rewrite Forall_forall in Ho. specialize (Ho _ Hin).
      apply Forall_update_first; [exact Hi|]. intros x Hx.
      apply find_some in Hx as [Hxin _].
      rewrite Forall_forall in Hi. specialize (Hi _ Hxin).
      unfold restore. simpl. rewrite !or_zero_id. lia.
    + apply Forall_update_first; [exact Ho|]. intros x Hx.
      apply find_some in Hx as [Hxin _].
      rewrite Forall_forall in Ho. exact (Ho _ Hxin).
  - destruct (post_update_arrival_orders cmp d r) as [Hit Hq].
    split; [now rewrite Hit|]. exact (Forall_quantity _ _ Hq Ho).
  - destruct (post_takedown_item_cases cmp e d r)
      as [(code & msg & ->)|(itemId & item & os' & Hf & HF & ->)];
      [now split|].
    split; simpl.
    + apply Forall_update_first; [exact Hi|]. intros x _. simpl.
      apply find_some in Hf as [Hin _].
      rewrite Forall_forall in Hi. specialize (Hi _ Hin).
      assert (0 <= sum_quantities
                      (filter (live_order_of (Item.id item)) (orders d))).
      { apply sum_quantities_nonneg. rewrite Forall_forall in *.
        intros o Hin'. apply filter_In in Hin' as [Hin' _]. auto. }
      lia.
    + exact (Forall_quantity _ _ (cascaded_quantity _ _ _ HF) Ho).
Qed.

(** X13: the stock invariant of the specification holds on the runs in
    which no order is placed for a negative quantity: from a document whose
    stocks and order quantities are not negative, every order, cancel,
    arrival and takedown request leaves every stock non-negative. *)
Lemma run_nonneg_quantities (cmp : string -> string -> bool)
      (rqs : list request) (d : data) :
  nonneg_quantities d -> Forall nonneg_request rqs ->
  Forall (fun it => 0 <= Item.stock it) (items (run cmp d rqs)).
Proof.
  intros Hd Hrqs.
  enough (nonneg_quantities (run cmp d rqs)) as [H _] by exact H.
  revert d Hd. unfold run.
  induction Hrqs as [|rq l Hrq Hl IH]; intros d Hd; simpl; [exact Hd|].
  apply IH. now apply step_nonneg_quantities.
Qed.

Lemma nth_error_update_first_canceled (p : Order.t -> bool) (ts : string)
      (l : list Order.t) (k : nat) (o : Order.t) :
  nth_error l k = Some o -> Order.status o = canceled ->
  exists o',
    nth_error (update_first p (Order.cancel ts) l) k = Some o'
    /\ Order.status o' = canceled.
Proof.
  revert k. induction l as [|x l IH]; intros [|k]; simpl; try discriminate.
  - intros [= ->] Hs. destruct (p o); simpl; eauto.
  - intros Hk Hs. destruct (p x); simpl; eauto.
Qed.

Lemma nth_error_cascaded_canceled (itemId : Z) (os os' : list Order.t)
      (k : nat) (o : Order.t) :
  Forall2 (cascaded itemId) os os' ->
  nth_error os k = Some o -> Order.status o = canceled ->
  nth_error os' k = Some o.
Proof.
  intros HF. revert k.
  induction HF as [|x x' l l' Hx Hl IH]; intros [|k]; simpl; try discriminate.
  - intros [= ->] Hs. unfold cascaded, live_order_of, Order.live in Hx.
    rewrite Hs, andb_false_r in Hx. now subst.
  - auto.
Qed.

(** X14: the order, cancel and takedown handlers never change the status
    of a canceled order: at every position of the order array, an order that
    is canceled before the request is canceled after it. *)
Lemma canceled_kept_by_other_handlers (cmp : string -> string -> bool)
      (d : data) (rq : request) (k : nat) (o : Order.t) :
  (forall r, rq <> UpdateArrival r) ->
  nth_error (orders d) k = Some o -> Order.status o = canceled ->
  exists o',
    nth_error (orders (step cmp d rq)) k = Some o'
    /\ Order.status o' = canceled.
Proof.
  intros Hrq Hk Hs. destruct rq as [e r|e r|r|e r]; simpl.
  - destruct (post_order e d r) as [d' [o1|code msg]] eqn:Hp.
    + destruct (post_order_inv _ _ _ _ _ Hp)
        as (itemId & item & buyer & _ & _ & _ & _ & _ & _ & ->).
      simpl. exists o. split; [|exact Hs].
      rewrite nth_error_app1; [exact Hk|].
      apply nth_error_Some. congruence.
    + destruct (post_order_cases e d r) as [(m & Hm & _)|(o1 & Hj)].
      * rewrite Hm in Hp. injection Hp as <- _ _. simpl. eauto.
      * rewrite Hp in Hj. discriminate.
  - destruct (post_cancel_order_cases cmp e d r)
      as [(code & msg & ->)|(orderId & ord & _ & _ & ->)]; simpl; [eauto|].
    now apply nth_error_update_first_canceled with (o := o).
  - now elim (Hrq r).
  - destruct (post_takedown_item_cases cmp e d r)
      as [(code & msg & ->)|(itemId & item & os' & _ & HF & ->)];
      simpl; [eauto|].
    exists o. split; [|exact Hs].
    exact (nth_error_cascaded_canceled _ _ _ _ _ HF Hk Hs).
Qed.

(** * Further properties of the code *)

(** ** Ids *)

Lemma Math_max_In (xs : list Z) (x : Z) : In (Math_max x xs) (x :: xs).
Proof.
  unfold Math_max. revert x. induction xs as [|y ys IH]; intros x; simpl.
  - now left.
  - destruct (IH (Z.max x y)) as [H|H].
    + rewrite <- H. destruct (Z.max_spec x y) as [[_ ->]|[_ ->]]; auto.
    + auto.
Qed.

(** X1: on an array of ids that JavaScript numbers hold exactly (below
    2^53 in absolute value), [nextId] is above every id of the array, hence
    not one of them, and is itself exact (at most 2^53); on the empty array
    it is 1. *)
Theorem nextId_is_fresh (ids : list Z) :
  Forall safe_id ids ->
  nextId [] = 1
  /\ Forall (fun i => i < nextId ids) ids
  /\ ~ In (nextId ids) ids
  /\ Z.abs (nextId ids) <= 2 ^ 53.
Proof.
  intros Hs. split; [reflexivity|]. pose proof (nextId_above ids) as H.
  split; [exact H|]. split.
  - intros Hin. rewrite Forall_forall in H. specialize (H _ Hin). lia.
  - unfold nextId. destruct ids as [|x xs]; [simpl; lia|].
    cbn [map].
    pose proof (Math_max_In (map or_zero xs) (or_zero x)) as Hin.
    rewrite <- (map_cons or_zero) in Hin.
    apply in_map_iff in Hin as (y & Hy & Hin). rewrite or_zero_id in Hy.
    rewrite Forall_forall in Hs. specialize (Hs _ Hin).
    unfold safe_id in Hs. rewrite <- Hy.
    change (2 ^ 53) with 9007199254740992 in *. lia.
Qed.

Lemma nextId_is_fresh_witness :
  nextId [] = 1
  /\ Forall (fun i => i < nextId [3; 7; 0]) [3; 7; 0]
  /\ ~ In (nextId [3; 7; 0]) [3; 7; 0]
  /\ Z.abs (nextId [3; 7; 0]) <= 2 ^ 53.
Proof.
  apply nextId_is_fresh. repeat constructor.
Defined.

Lemma map_update_first {A B} (g : A -> B) (p : A -> bool) (f : A -> A)
      (l : list A) :
  (forall x, g (f x) = g x) -> map g (update_first p f l) = map g l.
Proof.
  intros Hg. induction l as [|x r IH]; simpl; [reflexivity|].
  destruct (p x); simpl; [now rewrite Hg|now rewrite IH].
Qed.

Lemma cascaded_ids (itemId : Z) (os os' : list Order.t) :
  Forall2 (cascaded itemId) os os' -> map Order.id os' = map Order.id os.
Proof.
  induction 1 as [|o o' l l' Ho Hl IH]; simpl; [reflexivity|].
  rewrite IH. f_equal. unfold cascaded in Ho.
  destruct (live_order_of itemId o); [destruct Ho as [ts ->]|subst];
    reflexivity.
Qed.

Lemma post_update_arrival_cases (cmp : string -> string -> bool) (d : data)
      (r : arrival_req) :
  (exists code msg, post_update_arrival cmp d r = (d, Error code msg))
  \/ (exists orderId ord upd,
        find (order_with_id orderId) (orders d) = Some ord
        /\ ar_orderId r = Some orderId
        /\ (upd = Order.with_arrival (ar_arrivalDate r) scheduled
            /\ truthy_opt (ar_arrivalDate r) = true
            \/ upd = Order.with_arrival None processing
               /\ truthy_opt (ar_arrivalDate r) = false)
        /\ post_update_arrival cmp d r
           = (mkData (accounts d) (items d)
                     (update_first (order_with_id orderId) upd (orders d)),
              Json (upd ord))).
Proof.
  unfold post_update_arrival, admin_required.
  destruct (checkAdmin cmp d (ar_cred r)); simpl; [|left; eauto].
  destruct (ar_orderId r) as [orderId|]; [|left; eauto].
  destruct (find _ (orders d)) as [ord|] eqn:Hf; [|left; eauto].
  right. exists orderId, ord. eexists. split; [exact Hf|].
  split; [reflexivity|]. split; [|reflexivity].
  destruct (truthy_opt (ar_arrivalDate r)); auto.
Qed.

Lemma NoDup_snoc_fresh (ids : list Z) :
  NoDup ids -> NoDup (ids ++ [nextId ids]).
Proof.
  intros Hnd. apply NoDup_app; [exact Hnd|repeat constructor; intros []|].
  intros x Hx [<-|[]]. pose proof (nextId_above ids) as H.
  rewrite Forall_forall in H. specialize (H _ Hx). lia.
Qed.

Lemma step_well_formed_ids (cmp : string -> string -> bool) (d : data)
      (rq : request) :
  well_formed_ids d -> well_formed_ids (step cmp d rq).
Proof.
  intros (Hi & Hip & Ho & Hop). destruct rq as [e r|e r|r|e r]; simpl.
  - destruct (post_order e d r) as [d' [o|code msg]] eqn:Hp.
    + destruct (post_order_inv _ _ _ _ _ Hp)
        as (itemId & item & buyer & _ & _ & _ & _ & _ & -> & ->).
      unfold well_formed_ids; simpl.
      rewrite (map_update_first Item.id) by reflexivity.
      rewrite map_app. simpl.
      repeat split; auto using NoDup_snoc_fresh.
      apply Forall_app. split; [exact Hop|].
      constructor; [|constructor]. now apply nextId_positive.
    + destruct (post_order_cases e d r) as [(m & Hm & _)|(o & Hj)].
      * rewrite Hm in Hp. injection Hp as <- _ _. now repeat split.
      * rewrite Hp in Hj. discriminate.
  - destruct (post_cancel_order_cases cmp e d r)
      as [(code & msg & ->)|(orderId & ord & _ & _ & ->)];
      [now repeat split|].
    unfold well_formed_ids; simpl.
    rewrite (map_update_first Item.id), (map_update_first Order.id)
      by reflexivity.
    now repeat split.
  - destruct (post_update_arrival_cases cmp d r)
      as [(code & msg & ->)|(orderId & ord & upd & _ & _ & Hu & ->)];
      [now repeat split|].
    unfold well_formed_ids; simpl.
    rewrite (map_update_first Order.id);
      [now repeat split|].
    intros x. destruct Hu as [[-> _]|[-> _]]; reflexivity.
  - destruct (post_takedown_item_cases cmp e d r)
      as [(code & msg & ->)|(itemId & item & os' & _ & HF & ->)];
      [now repeat split|].
    unfold well_formed_ids; simpl.
    rewrite (map_update_first Item.id) by reflexivity.
    rewrite (cascaded_ids _ _ _ HF). now repeat split.
Qed.

Lemma create_account_items_orders (cmp : string -> string -> bool)
      (hash : string -> string -> string) (salt : string) (d : data)
      (r : account_req) :
  items (fst (post_create_account cmp hash salt d r)) = items d
  /\ orders (fst (post_create_account cmp hash salt d r)) = orders d.
Proof.
  unfold post_create_account.
  destruct (ca_username r) as [u|]; [|auto].
  destruct (truthy u); simpl; [|auto].
  destruct (_ || _)%bool; [auto|].
  destruct (find _ (accounts d)).
  - destruct (_ || _)%bool; auto.
  - destruct (bad_fullName _); auto.
Qed.

Lemma create_item_cases (cmp : string -> string -> bool) (d : data)
      (r : item_req) :
  (exists code msg, post_create_item cmp d r = (d, Error code msg))
  \/ (exists name,
        ci_name r = Some name /\ truthy name = true
        /\ checkAdmin cmp d (ci_cred r) = true
        /\ let newItem :=
             Item.mk (nextId (map Item.id (items d))) name
                     (default 0 (ci_price r)) (default 0 (ci_stock r))
                     (Some true) in
           post_create_item cmp d r
           = (mkData (accounts d) (items d ++ [newItem]) (orders d),
              Json newItem)).
Proof.
  unfold post_create_item, admin_required.
  destruct (checkAdmin cmp d (ci_cred r)); simpl; [|left; eauto].
  destruct (ci_name r) as [name|]; simpl; [|left; eauto].
  destruct (truthy name) eqn:Ht; simpl; [|left; eauto].
  right. exists name. auto.
Qed.

(** X2: every request handler keeps the ids of the document well formed:
    the item ids distinct and positive, the order ids distinct and positive.
    New ids come from [nextId] only, and no handler rewrites an id. *)
Theorem server_run_well_formed_ids (cmp : string -> string -> bool)
        (hash : string -> string -> string) (rqs : list server_request)
        (d : data) :
  well_formed_ids d -> well_formed_ids (server_run cmp hash d rqs).
Proof.
  revert d. unfold server_run.
  induction rqs as [|rq l IH]; intros d Hd; simpl; [exact Hd|].
  apply IH. destruct rq as [rq|salt r|r]; simpl.
  - now apply step_well_formed_ids.
  - destruct (create_account_items_orders cmp hash salt d r) as [Hi Ho].
    unfold well_formed_ids. now rewrite Hi, Ho.
  - destruct Hd as (Hi & Hip & Ho & Hop).
    destruct (create_item_cases cmp d r)
      as [(code & msg & ->)|(name & _ & _ & _ & ->)]; [now repeat split|].
    unfold well_formed_ids; simpl. rewrite map_app. simpl.
    repeat split; auto using NoDup_snoc_fresh.
    apply Forall_app. split; [exact Hip|].
    constructor; [|constructor]. now apply nextId_positive.
Qed.

Lemma server_run_well_formed_ids_witness :
  well_formed_ids
    (server_run sample_compare (fun salt p => "hash:" ++ p)%string sample_busy
       [Core (PlaceOrder sample_env
                (mkOrderReq (Some "bob") None (Some 2) (Some 1)));
        CreateItem (mkItemReq admin_cred (Some "Scarf") (Some 1500) (Some 3));
        Core (TakedownItem sample_env (mkTakedownReq admin_cred (Some 1)))]).
Proof.
  apply server_run_well_formed_ids.
  unfold well_formed_ids. simpl.
  repeat split; repeat constructor; simpl; intuition discriminate.
Defined.

(** ** Stock plus reserved quantity *)

Lemma sum_quantities_app (a b : list Order.t) :
  sum_quantities (a ++ b) = sum_quantities a + sum_quantities b.
Proof.
  induction a as [|o a IH]; simpl; [reflexivity|].
  rewrite !sum_quantities_cons, IH. lia.
Qed.

Lemma find_active_by_id (l : list Item.t) (itemId : Z) (item : Item.t) :
  NoDup (map Item.id l) ->
  find (active_item_with_id itemId) l = Some item ->
  find (item_with_id itemId) l = Some item.
Proof.
  unfold find. induction l as [|x l IH]; simpl; [discriminate|].
  intros Hn Hf. inversion Hn as [|? ? Hnotin Hn']; subst.
  unfold item_with_id at 1.
  destruct (active_item_with_id itemId x) eqn:Hx.
  - unfold active_item_with_id in Hx. apply andb_true_iff in Hx as [Hx _].
    now rewrite Hx.
  - destruct (Z.eqb_spec (Item.id x) itemId) as [Heq|Hne]; [|auto].
    exfalso. apply Hnotin. apply find_some in Hf as [Hin Hp].
    unfold active_item_with_id in Hp. apply andb_true_iff in Hp as [Hp _].
    apply Z.eqb_eq in Hp. rewrite Heq, <- Hp. now apply in_map.
Qed.

Lemma find_update_first_by {A} (p q : A -> bool) (f : A -> A) (l : list A)
      (x : A) :
  find p l = Some x -> find q l = Some x ->
  (forall y, p y = true -> q y = true) -> (forall y, q (f y) = q y) ->
  find q (update_first p f l) = Some (f x).
Proof.
  unfold find. intros Hp Hq Hpq Hqf.
  induction l as [|y r IH]; simpl in *; [discriminate|].
  destruct (p y) eqn:Hy.
  - injection Hp as ->. simpl. now rewrite Hqf, (Hpq _ Hy).
  - simpl. destruct (q y) eqn:Hqy.
    + injection Hq as ->. apply find_some in Hp as [_ Hp]. congruence.
    + auto.
Qed.

Lemma find_update_first_other {A} (p q : A -> bool) (f : A -> A)
      (l : list A) :
  (forall y, p y = true -> q y = false) -> (forall y, q (f y) = q y) ->
  find q (update_first p f l) = find q l.
Proof.
  unfold find. intros Hpq Hqf.
  induction l as [|y r IH]; simpl; [reflexivity|].
  destruct (p y) eqn:Hy; simpl.
  - now rewrite Hqf, (Hpq _ Hy).
  - now rewrite IH.
Qed.

Lemma reserved_for_cons (itemId : Z) (o : Order.t) (os : list Order.t) :
  reserved_for itemId (o :: os)
  = (if live_order_of itemId o then Order.quantity o else 0)
    + reserved_for itemId os.
Proof.
  unfold reserved_for. simpl. destruct (live_order_of itemId o).
  - apply sum_quantities_cons.
  - lia.
Qed.

Lemma reserved_for_snoc (itemId : Z) (os : list Order.t) (o : Order.t) :
  reserved_for itemId (os ++ [o])
  = reserved_for itemId os
    + (if live_order_of itemId o then Order.quantity o else 0).
Proof.
  induction os as [|x os IH]; simpl.
  - rewrite reserved_for_cons. unfold reserved_for, sum_quantities. simpl. lia.
  - rewrite !reserved_for_cons, IH. lia.
Qed.

Lemma reserved_update_cancel (itemId orderId : Z) (ts : string)
      (os : list Order.t) (ord : Order.t) :
  find (order_with_id orderId) os = Some ord ->
  Order.status ord <> canceled ->
  reserved_for itemId
    (update_first (order_with_id orderId) (Order.cancel ts) os)
  = reserved_for itemId os
    - (if Order.itemId ord =? itemId then Order.quantity ord else 0).
Proof.
  unfold find. intros Hf Hs. induction os as [|o os IH]; simpl in *;
    [discriminate|].
  destruct (order_with_id orderId o).
  - injection Hf as ->. rewrite !reserved_for_cons.
    unfold live_order_of, Order.live. simpl.
    destruct (status_eqb_spec (Order.status ord) canceled); [contradiction|].
    rewrite andb_false_r, andb_true_r.
    destruct (Order.itemId ord =? itemId); lia.
  - rewrite !reserved_for_cons, IH by assumption. lia.
Qed.

Lemma reserved_cascaded (i j : Z) (os os' : list Order.t) :
  Forall2 (cascaded j) os os' ->
  reserved_for i os' = if i =? j then 0 else reserved_for i os.
Proof.
  induction 1 as [|o o' l l' Ho Hl IH]; [now destruct (i =? j)|].
  rewrite !reserved_for_cons, IH. unfold cascaded in Ho.
  destruct (live_order_of j o) eqn:Hj.
  - destruct Ho as [ts ->]. unfold live_order_of, Order.live in *. simpl.
    rewrite andb_false_r. apply andb_true_iff in Hj as [Hj _].
    apply Z.eqb_eq in Hj. rewrite Hj.
    destruct (Z.eqb_spec i j) as [->|Hne].
    + reflexivity.
    + destruct (Z.eqb_spec j i); [congruence|]. reflexivity.
  - subst o'. destruct (Z.eqb_spec i j) as [->|Hne]; [|reflexivity].
    rewrite Hj. reflexivity.
Qed.

Lemma reserved_update_live (itemId : Z) (p : Order.t -> bool)
      (upd : Order.t -> Order.t) (os : list Order.t) (ord : Order.t) :
  find p os = Some ord ->
  live_order_of itemId (upd ord) = live_order_of itemId ord ->
  Order.quantity (upd ord) = Order.quantity ord ->
  reserved_for itemId (update_first p upd os) = reserved_for itemId os.
Proof.
  unfold find. intros Hf Hl Hq. induction os as [|o os IH]; simpl in *;
    [discriminate|].
  destruct (p o).
  - injection Hf as ->. now rewrite !reserved_for_cons, Hl, Hq.
  - now rewrite !reserved_for_cons, IH.
Qed.

(** X3: the reservation invariant.  On a document with distinct item ids,
    the order, cancel and takedown handlers, and an arrival update of an
    order that is not canceled, keep for every item the sum of its stock
    and of the quantities of its live orders: what an order takes from the
    stock it reserves, what a cancellation releases it gives back. *)
Theorem step_conserves_reserved (cmp : string -> string -> bool) (d : data)
        (rq : request) (itemId : Z) (it : Item.t) :
  NoDup (map Item.id (items d)) -> no_reopen d rq ->
  find (item_with_id itemId) (items d) = Some it ->
  exists it',
    find (item_with_id itemId) (items (step cmp d rq)) = Some it'
    /\ Item.stock it' + reserved_for itemId (orders (step cmp d rq))
       = Item.stock it + reserved_for itemId (orders d).
Proof.
  intros Hnd Hrq Hit. destruct rq as [e r|e r|r|e r]; simpl in *.
  - destruct (post_order e d r) as [d' [o|code msg]] eqn:Hp.
    + destruct (post_order_inv _ _ _ _ _ Hp)
        as (j & item & buyer & _ & _ & Hf & _ & _ & -> & ->).
      simpl. set (q := default 1 (or_quantity r)).
      assert (Hj : Item.id item = j).
      { apply find_some in Hf as [_ Hx]. unfold active_item_with_id in Hx.
        apply andb_true_iff in Hx as [Hx _]. now apply Z.eqb_eq. }
      rewrite reserved_for_snoc.
      replace (live_order_of itemId _) with (j =? itemId)
        by (unfold live_order_of, Order.live, new_order; simpl;
            now rewrite Hj, andb_true_r).
      change (Order.quantity (new_order _ _ _ _ _ q)) with q.
      destruct (Z.eqb_spec j itemId) as [->|Hne].
      * pose proof (find_active_by_id _ _ _ Hnd Hf) as Hbyid.
        assert (it = item) as -> by congruence.
        eexists. split.
        { apply (find_update_first_by _ _ _ _ item Hf Hbyid).
          - intros y Hy. unfold active_item_with_id in Hy.
            now apply andb_true_iff in Hy as [Hy _].
          - reflexivity. }
        simpl. lia.
      * exists it. split.
        { rewrite find_update_first_other; [exact Hit| |reflexivity].
          intros y Hy. unfold active_item_with_id in Hy.
          apply andb_true_iff in Hy as [Hy _]. apply Z.eqb_eq in Hy.
          unfold item_with_id. apply Z.eqb_neq. congruence. }
        lia.
    + destruct (post_order_cases e d r) as [(m & Hm & _)|(o & Hj)].
      * rewrite Hm in Hp. injection Hp as <- _ _. eauto.
      * rewrite Hp in Hj. discriminate.
  - destruct (post_cancel_order_cases cmp e d r)
      as [(code & msg & ->)|(orderId & ord & Hf & Hs & ->)]; [eauto|].
    simpl. rewrite (reserved_update_cancel _ _ _ _ _ Hf Hs).
    destruct (Z.eqb_spec (Order.itemId ord) itemId) as [->|Hne].
    + eexists. split.
      { apply (find_update_first _ _ _ _ Hit).
        pose proof (find_some _ _ Hit) as [_ Hx]. exact Hx. }
      unfold restore. simpl. rewrite !or_zero_id. lia.
    + exists it. split; [|lia].
      rewrite find_update_first_other; [exact Hit| |reflexivity].
      intros y Hy. unfold item_with_id in *. apply Z.eqb_eq in Hy.
      apply Z.eqb_neq. congruence.
  - destruct (post_update_arrival_cases cmp d r)
      as [(code & msg & ->)|(orderId & ord & upd & Hf & Hid & Hu & ->)];
      [eauto|].
    simpl. exists it. split; [exact Hit|]. f_equal.
    specialize (Hrq _ _ Hid Hf).
    apply (reserved_update_live _ _ _ _ _ Hf).
    + unfold live_order_of, Order.live.
      destruct (status_eqb_spec (Order.status ord) canceled); [contradiction|].
      destruct Hu as [[-> _]|[-> _]]; reflexivity.
    + destruct Hu as [[-> _]|[-> _]]; reflexivity.
  - destruct (post_takedown_item_cases cmp e d r)
      as [(code & msg & ->)|(j & item & os' & Hf & HF & ->)]; [eauto|].
    simpl. assert (Hj : Item.id item = j).
    { apply find_some in Hf as [_ Hx]. now apply Z.eqb_eq. }
    rewrite Hj in *. rewrite (reserved_cascaded itemId j _ _ HF).
    destruct (Z.eqb_spec itemId j) as [->|Hne].
    + assert (it = item) as -> by congruence.
      eexists. split.
      { apply (find_update_first _ _ _ _ Hf). simpl.
        unfold item_with_id. simpl. now apply Z.eqb_eq. }
      simpl. unfold reserved_for. lia.
    + exists it. split; [|reflexivity].
      rewrite find_update_first_other; [exact Hit| |reflexivity].
      intros y Hy. unfold item_with_id in *. apply Z.eqb_eq in Hy.
      apply Z.eqb_neq. congruence.
Qed.

Lemma step_conserves_reserved_witness :
  exists it',
    find (item_with_id 1)
         (items (step sample_compare sample_busy
                   (TakedownItem sample_env
                                 (mkTakedownReq admin_cred (Some 1)))))
    = Some it'
    /\ Item.stock it'
       + reserved_for 1
           (orders (step sample_compare sample_busy
                      (TakedownItem sample_env
                                    (mkTakedownReq admin_cred (Some 1)))))
       = Item.stock (Item.with_stock 1 widget)
         + reserved_for 1 (orders sample_busy).
Proof.
  apply step_conserves_reserved.
  - simpl. repeat constructor; simpl; intuition discriminate.
  - exact I.
  - reflexivity.
Defined.

(** ** Who may do what *)

Lemma checkAdminCredentials_sound (cmp : string -> string -> bool) (d : data)
      (u p : string) :
  checkAdminCredentials cmp d u p = true ->
  toLowerCase u = "admin"
  /\ exists admin hash,
       In admin (accounts d) /\ Account.passwordHash admin = Some hash
       /\ cmp p hash = true.
Proof.
  unfold checkAdminCredentials.
  destruct (_ || _)%bool; [discriminate|].
  destruct (String.eqb_spec (toLowerCase u) "admin") as [Hu|]; simpl;
    [|discriminate].
  destruct (find _ (accounts d)) as [admin|] eqn:Hf; [|discriminate].
  destruct (Account.passwordHash admin) as [hash|] eqn:Hh; [|discriminate].
  destruct (truthy hash); simpl; [|discriminate].
  intros Hc. split; [exact Hu|]. exists admin, hash.
  apply find_some in Hf as [Hin _]. auto.
Qed.


(** X4: the admin handlers are closed to a request that does not name the
    admin, or whose password bcrypt accepts against no stored hash: the
    arrival update, the takedown and the item creation all answer 403 and
    leave the document as it is, whatever else the request says. *)
Theorem admin_handlers_need_password (cmp : string -> string -> bool)
        (e : env) (d : data) (c : credentials) :
  toLowerCase (default "" (c_username c)) <> "admin"
  \/ (forall a hash, In a (accounts d) ->
        Account.passwordHash a = Some hash ->
        cmp (default "" (c_password c)) hash = false) ->
  (forall orderId date,
     post_update_arrival cmp d (mkArrivalReq c orderId date)
     = (d, admin_required))
  /\ (forall itemId,
        post_takedown_item cmp e d (mkTakedownReq c itemId)
        = (d, admin_required))
  /\ (forall name price stock,
        post_create_item cmp d (mkItemReq c name price stock)
        = (d, admin_required)).
Proof.
  intros H.
  assert (Hc : checkAdmin cmp d c = false).
  { unfold checkAdmin.
    destruct (checkAdminCredentials cmp d _ _) eqn:Hck; [|reflexivity].
    apply checkAdminCredentials_sound in Hck
      as (Hu & admin & hash & Hin & Hh & Hcmp).
    destruct H as [H|H]; [contradiction|].
    rewrite (H _ _ Hin Hh) in Hcmp. discriminate. }
  unfold post_update_arrival, post_takedown_item, post_create_item. simpl.
  rewrite Hc. auto.
Qed.

Lemma admin_handlers_need_password_witness :
  (forall orderId date,
     post_update_arrival sample_compare sample_busy
       (mkArrivalReq (mkCred (Some "admin") (Some "guess")) orderId date)
     = (sample_busy, admin_required))
  /\ (forall itemId,
        post_takedown_item sample_compare sample_env sample_busy
          (mkTakedownReq (mkCred (Some "admin") (Some "guess")) itemId)
        = (sample_busy, admin_required))
  /\ (forall name price stock,
        post_create_item sample_compare sample_busy
          (mkItemReq (mkCred (Some "admin") (Some "guess")) name price stock)
        = (sample_busy, admin_required)).
Proof.
  apply admin_handlers_need_password. right.
  intros a hash [<-|[]] [= <-]. reflexivity.
Defined.

(** X5: who can cancel a guest order.  For an order whose user name is a
    guest name, a request that fails the admin check is authorized exactly
    when it carries a non-empty token and the order has that very token. *)
Theorem guest_order_needs_token (cmp : string -> string -> bool) (d : data)
        (u p : string) (tok : option string) (o : Order.t) :
  toLowerCase (Order.username o) = "guest" ->
  checkAdminCredentials cmp d u p = false ->
  authorized cmp d u p tok o = true
  <-> exists t, tok = Some t /\ Order.cancelToken o = Some t /\ t <> "".
Proof.
  intros Hg Hadm. unfold authorized.
  rewrite Hadm, andb_false_r, Hg. simpl. rewrite andb_false_r. simpl.
  destruct tok as [t|], (Order.cancelToken o) as [t'|]; simpl;
    try rewrite andb_false_r;
    try (split; [discriminate|intros (x & H1 & H2 & _); congruence]).
  unfold truthy. destruct (String.eqb_spec t ""); simpl.
  - split; [discriminate|]. intros (x & [= ->] & _ & Hx). contradiction.
  - destruct (String.eqb_spec t' ""); simpl.
    + split; [discriminate|]. intros (x & [= ->] & [= ->] & Hx). contradiction.
    + destruct (String.eqb_spec t t') as [->|Hne].
      * split; [eauto|reflexivity].
      * split; [discriminate|]. intros (x & [= ->] & [= ->] & _).
        contradiction.
Qed.

Lemma guest_order_needs_token_witness :
  authorized sample_compare sample_ordered "mallory" ""
             (Some "defghijklmnopqrstuvwxyz0") live_guest_order = true
  <-> exists t, Some "defghijklmnopqrstuvwxyz0" = Some t
                /\ Order.cancelToken live_guest_order = Some t /\ t <> "".
Proof.
  apply guest_order_needs_token; reflexivity.
Defined.

(** X6: who can cancel the order of a registered user.  For an order under
    a user name that is not a guest name and without token, a request that
    fails the admin check is authorized exactly when its user name is the
    order's up to letter case; no password is looked at.  Both names are
    ASCII, on which the case folding of the embedding is the one of the
    code. *)
Theorem owner_cancels_by_name (cmp : string -> string -> bool) (d : data)
        (u p : string) (tok : option string) (o : Order.t) :
  non_guest (Order.username o) = true ->
  Order.cancelToken o = None ->
  checkAdminCredentials cmp d u p = false ->
  ascii_only u = true -> ascii_only (Order.username o) = true ->
  authorized cmp d u p tok o = true
  <-> toLowerCase u = toLowerCase (Order.username o).
Proof.
  intros Hng Htok Hadm _ _. unfold authorized.
  rewrite Hadm, andb_false_r, Htok, andb_false_r.
  unfold non_guest in Hng. apply andb_true_iff in Hng as [Ht Hg].
  rewrite Ht, Hg, !andb_true_r.
  destruct (String.eqb_spec (toLowerCase u) (toLowerCase (Order.username o)))
    as [Heq|Hne].
  - assert (Hu : truthy u = true).
    { unfold truthy in *. destruct u; simpl in *; [|reflexivity].
      destruct (Order.username o); simpl in *; [discriminate Ht|discriminate]. }
    rewrite Hu. simpl. tauto.
  - rewrite andb_false_r. split; [discriminate|contradiction].
Qed.

Lemma owner_cancels_by_name_witness :
  authorized sample_compare sample_busy "EVE" "" None
    (Order.mk 4 1 "Widget" "eve" "eve" 1 1000 scheduled
              (Some "2024-01-05") "2024-01-01T04:00:00.000Z" None None)
  = true
  <-> toLowerCase "EVE" = toLowerCase "eve".
Proof.
  apply (owner_cancels_by_name sample_compare sample_busy "EVE" "" None
           (Order.mk 4 1 "Widget" "eve" "eve" 1 1000 scheduled
              (Some "2024-01-05") "2024-01-01T04:00:00.000Z" None None));
    reflexivity.
Defined.

(** ** How the handlers compose *)

Lemma post_cancel_order_inv (cmp : string -> string -> bool) (e : env)
      (d d1 : data) (r : cancel_req) (o : Order.t) :
  post_cancel_order cmp e d r = (d1, Json o) ->
  exists orderId ord,
    cr_orderId r = Some orderId /\ orderId <> 0
    /\ find (order_with_id orderId) (orders d) = Some ord
    /\ Order.status ord <> canceled
    /\ o = Order.cancel (now e 0) ord
    /\ d1 = mkData (accounts d)
              (update_first (item_with_id (Order.itemId ord))
                            (restore (Order.quantity ord)) (items d))
              (update_first (order_with_id orderId) (Order.cancel (now e 0))
                            (orders d)).
Proof.
  unfold post_cancel_order.
  destruct (cr_orderId r) as [orderId|]; [|discriminate].
  destruct (Z.eqb_spec orderId 0); [discriminate|].
  destruct (find _ (orders d)) as [ord|] eqn:Hf; [|discriminate].
  destruct (status_eqb_spec (Order.status ord) canceled); [discriminate|].
  destruct (authorized _ _ _ _ _ _); simpl; [|discriminate].
  intros [= <- <-]. exists orderId, ord. auto 7.
Qed.

(** X7: a cancellation cannot be repeated.  Once a cancel request has
    succeeded, every further cancel request for the same order id, from
    anyone, is answered with [400 Order already canceled] and changes
    nothing: the stock is restored once. *)
Theorem cancel_twice_is_refused (cmp : string -> string -> bool)
        (e e' : env) (d d1 : data) (r r' : cancel_req) (o : Order.t) :
  post_cancel_order cmp e d r = (d1, Json o) ->
  cr_orderId r' = cr_orderId r ->
  post_cancel_order cmp e' d1 r' = (d1, Error 400 "Order already canceled").
Proof.
  intros Hc Hid.
  destruct (post_cancel_order_inv _ _ _ _ _ _ Hc)
    as (orderId & ord & Hr & Hnz & Hf & _ & _ & ->).
  unfold post_cancel_order. rewrite Hid, Hr.
  destruct (Z.eqb_spec orderId 0); [contradiction|].
  cbn [orders].
  rewrite (find_update_first _ _ _ _ Hf).
  - reflexivity.
  - pose proof (find_some _ _ Hf) as [_ Hx]. exact Hx.
Qed.

Lemma cancel_twice_is_refused_witness :
  post_cancel_order sample_compare sample_env
    (fst (post_cancel_order sample_compare sample_env sample_ordered
            (mkCancelReq (Some 1) None None
                         (Some "defghijklmnopqrstuvwxyz0"))))
    (mkCancelReq (Some 1) (Some "admin") (Some "secret") None)
  = (fst (post_cancel_order sample_compare sample_env sample_ordered
            (mkCancelReq (Some 1) None None
                         (Some "defghijklmnopqrstuvwxyz0"))),
     Error 400 "Order already canceled").
Proof.
  apply (cancel_twice_is_refused sample_compare sample_env sample_env
           sample_ordered _
           (mkCancelReq (Some 1) None None (Some "defghijklmnopqrstuvwxyz0"))
           _ (Order.cancel (now sample_env 0) live_guest_order));
    reflexivity.
Defined.

(** X8: the cancel handler tolerates an order whose item is gone.  When no
    item has the id the order refers to, an authorized cancellation still
    succeeds: the order becomes canceled and no item is touched. *)
Theorem cancel_tolerates_missing_item (cmp : string -> string -> bool)
        (e : env) (d : data) (r : cancel_req) (orderId : Z) (ord : Order.t) :
  cr_orderId r = Some orderId -> orderId <> 0 ->
  find (order_with_id orderId) (orders d) = Some ord ->
  Order.status ord <> canceled ->
  authorized cmp d (default "" (cr_username r)) (default "" (cr_password r))
             (cr_cancelToken r) ord = true ->
  find (item_with_id (Order.itemId ord)) (items d) = None ->
  exists d',
    post_cancel_order cmp e d r = (d', Json (Order.cancel (now e 0) ord))
    /\ items d' = items d /\ accounts d' = accounts d
    /\ find (order_with_id orderId) (orders d')
       = Some (Order.cancel (now e 0) ord)
    /\ Order.status (Order.cancel (now e 0) ord) = canceled
    /\ Order.canceledAt (Order.cancel (now e 0) ord) = Some (now e 0)
    /\ frozen (Order.cancel (now e 0) ord) = frozen ord.
Proof.
  intros Hid Hnz Hf Hs Hauth Hitem. unfold post_cancel_order.
  rewrite Hid. destruct (Z.eqb_spec orderId 0); [contradiction|].
  rewrite Hf. destruct (status_eqb_spec (Order.status ord) canceled);
    [contradiction|].
  rewrite Hauth. simpl. eexists. split; [reflexivity|]. simpl.
  split; [|split; [reflexivity|]].
  - clear - Hitem. unfold find in Hitem.
    induction (items d) as [|x l IH]; simpl in *; [reflexivity|].
    destruct (item_with_id (Order.itemId ord) x); [discriminate|].
    now rewrite IH.
  - split; [|repeat split].
    apply (find_update_first _ _ _ _ Hf).
    pose proof (find_some _ _ Hf) as [_ Hx]. exact Hx.
Qed.

Lemma cancel_tolerates_missing_item_witness :
  exists d',
    post_cancel_order sample_compare sample_env
      (mkData [] [gadget] [live_guest_order])
      (mkCancelReq (Some 1) None None (Some "defghijklmnopqrstuvwxyz0"))
    = (d', Json (Order.cancel (now sample_env 0) live_guest_order))
    /\ items d' = [gadget] /\ accounts d' = []
    /\ find (order_with_id 1) (orders d')
       = Some (Order.cancel (now sample_env 0) live_guest_order)
    /\ Order.status (Order.cancel (now sample_env 0) live_guest_order)
       = canceled
    /\ Order.canceledAt (Order.cancel (now sample_env 0) live_guest_order)
       = Some (now sample_env 0)
    /\ frozen (Order.cancel (now sample_env 0) live_guest_order)
       = frozen live_guest_order.
Proof.
  apply (cancel_tolerates_missing_item sample_compare sample_env
           (mkData [] [gadget] [live_guest_order])
           (mkCancelReq (Some 1) None None (Some "defghijklmnopqrstuvwxyz0"))
           1 live_guest_order);
    try reflexivity; discriminate.
Defined.

Lemma post_takedown_item_inv (cmp : string -> string -> bool) (e : env)
      (d d1 : data) (r : takedown_req) (res : takedown_res) :
  post_takedown_item cmp e d r = (d1, Json res) ->
  exists itemId item os',
    tr_itemId r = Some itemId
    /\ find (item_with_id itemId) (items d) = Some item
    /\ Forall2 (cascaded (Item.id item)) (orders d) os'
    /\ d1 = mkData (accounts d)
              (update_first (item_with_id itemId)
                 (fun i =>
                    Item.with_stock
                      (Item.stock item + reserved_for (Item.id item) (orders d))
                      (Item.with_active (Some false) i))
                 (items d))
              os'.
Proof.
  unfold post_takedown_item, admin_required.
  destruct (checkAdmin cmp d (tr_cred r)); simpl; [|discriminate].
  destruct (tr_itemId r) as [itemId|]; [|discriminate].
  destruct (find _ (items d)) as [item|] eqn:Hf; [|discriminate].
  destruct (cascade_spec e (Item.id item) (orders d) (Item.stock item) 0)
    as (os' & Hc & HF).
  rewrite Hc. intros [= <- _]. exists itemId, item, os'. auto.
Qed.

Lemma cascaded_no_live (itemId : Z) (os os' : list Order.t) :
  Forall2 (cascaded itemId) os os' -> filter (live_order_of itemId) os' = [].
Proof.
  induction 1 as [|o o' l l' Ho Hl IH]; simpl; [reflexivity|].
  rewrite IH. unfold cascaded in Ho.
  destruct (live_order_of itemId o) eqn:Hl'.
  - destruct Ho as [ts ->]. unfold live_order_of, Order.live. simpl.
    now rewrite andb_false_r.
  - subst. now rewrite Hl'.
Qed.

Lemma cascade_no_live (e : env) (itemId : Z) (os : list Order.t) (s c : Z) :
  filter (live_order_of itemId) os = [] ->
  cascade e itemId os s c = (os, s, c).
Proof.
  revert s c. induction os as [|o os IH]; intros s c; simpl; [reflexivity|].
  destruct (live_order_of itemId o); [discriminate|].
  intros H. now rewrite IH.
Qed.


Lemma update_first_twice {A} (p : A -> bool) (f g : A -> A) (l : list A) :
  (forall y, p (f y) = p y) ->
  update_first p g (update_first p f l)
  = update_first p (fun y => g (f y)) l.
Proof.
  intros Hp. induction l as [|y r IH]; simpl; [reflexivity|].
  destruct (p y) eqn:Hy; simpl.
  - now rewrite Hp, Hy.
  - now rewrite Hy, IH.
Qed.

Lemma update_first_In_id (l : list Item.t) (itemId : Z) (f : Item.t -> Item.t)
      (item x : Item.t) :
  NoDup (map Item.id l) -> (forall y, Item.id (f y) = Item.id y) ->
  find (item_with_id itemId) l = Some item ->
  In x (update_first (item_with_id itemId) f l) -> Item.id x = itemId ->
  x = f item.
Proof.
  unfold find. intros Hnd Hf. induction l as [|y r IH]; simpl;
    [discriminate|].
  inversion Hnd as [|? ? Hnotin Hnd']; subst.
  unfold item_with_id at 1 3.
  destruct (Z.eqb_spec (Item.id y) itemId) as [Heq|Hne].
  - intros [= ->] [<-|Hin] Hx; [reflexivity|].
    exfalso. apply Hnotin. rewrite Heq, <- Hx. now apply in_map.
  - intros Hfi [<-|Hin] Hx; [contradiction|]. auto.
Qed.

(** X9: an item that has been taken down is out of the shop.  After a
    successful takedown on a document with distinct item ids, no order of
    the item is live, the item list of the shop no longer shows an item with
    that id, and every order request for it is refused with status 400, the
    document unchanged. *)
Theorem takedown_closes_item (cmp : string -> string -> bool) (e : env)
        (d d1 : data) (r : takedown_req) (res : takedown_res) (itemId : Z) :
  NoDup (map Item.id (items d)) ->
  post_takedown_item cmp e d r = (d1, Json res) ->
  tr_itemId r = Some itemId ->
  filter (live_order_of itemId) (orders d1) = []
  /\ Forall (fun it => Item.id it <> itemId) (get_items d1)
  /\ forall e' r', or_itemId r' = Some itemId ->
       exists msg, post_order e' d1 r' = (d1, Error 400 msg).
Proof.
  intros Hnd Ht Hid.
  destruct (post_takedown_item_inv _ _ _ _ _ _ Ht)
    as (j & item & os' & Hj & Hf & HF & ->).
  assert (j = itemId) as -> by congruence.
  assert (Hitem : Item.id item = itemId).
  { pose proof (find_some _ _ Hf) as [_ Hx]. now apply Z.eqb_eq. }
  rewrite Hitem in *.
  assert (Hinact : forall x,
             In x (update_first (item_with_id itemId)
                     (fun i => Item.with_stock
                                 (Item.stock item
                                  + reserved_for itemId (orders d))
                                 (Item.with_active (Some false) i))
                     (items d)) ->
             Item.id x = itemId -> Item.is_active x = false).
  { intros x Hin Hx.
    match type of Hin with
    | In _ (update_first _ ?f _) =>
        rewrite (update_first_In_id _ _ f _ _ Hnd (fun y => eq_refl) Hf Hin Hx)
    end.
    reflexivity. }
  split; [exact (cascaded_no_live _ _ _ HF)|]. split.
  - unfold get_items. cbn [items]. apply Forall_forall.
    intros x Hx Hidx. apply filter_In in Hx as [Hin Hact].
    rewrite (Hinact _ Hin Hidx) in Hact. discriminate.
  - intros e' r' Hr'. unfold post_order. rewrite Hr'.
    destruct (itemId =? 0); [eauto|]. cbn [items].
    destruct (find (active_item_with_id itemId) _) as [x|] eqn:Hx; [|eauto].
    exfalso. apply find_some in Hx as [Hin Hp].
    unfold active_item_with_id in Hp. apply andb_true_iff in Hp as [Hp Ha].
    apply Z.eqb_eq in Hp. rewrite (Hinact _ Hin Hp) in Ha. discriminate.
Qed.

Lemma takedown_closes_item_witness :
  let d1 := fst (post_takedown_item sample_compare sample_env sample_busy
                   (mkTakedownReq admin_cred (Some 1))) in
  filter (live_order_of 1) (orders d1) = []
  /\ Forall (fun it => Item.id it <> 1) (get_items d1)
  /\ forall e' r', or_itemId r' = Some 1 ->
       exists msg, post_order e' d1 r' = (d1, Error 400 msg).
Proof.
  apply (takedown_closes_item sample_compare sample_env sample_busy _
           (mkTakedownReq admin_cred (Some 1)) (mkTakedownRes true 2) 1).
  - simpl. repeat constructor; simpl; intuition discriminate.
  - reflexivity.
  - reflexivity.
Defined.

(** X10: a takedown is idempotent.  After a successful takedown of an
    item, a second takedown of the same item by the admin cancels no order
    (the count is 0) and changes nothing in the document. *)
Theorem takedown_twice_changes_nothing (cmp : string -> string -> bool)
        (e e' : env) (d d1 : data) (r r' : takedown_req)
        (res : takedown_res) :
  post_takedown_item cmp e d r = (d1, Json res) ->
  tr_itemId r' = tr_itemId r ->
  checkAdmin cmp d1 (tr_cred r') = true ->
  post_takedown_item cmp e' d1 r' = (d1, Json (mkTakedownRes true 0)).
Proof.
  intros Ht Hid Hadm.
  destruct (post_takedown_item_inv _ _ _ _ _ _ Ht)
    as (j & item & os' & Hj & Hf & HF & ->).
  unfold post_takedown_item. rewrite Hadm, Hid, Hj. cbn [negb items orders].
  rewrite (find_update_first _ _ _ _ Hf)
    by (pose proof (find_some _ _ Hf) as [_ Hx]; exact Hx).
  cbn [Item.id Item.with_stock Item.with_active Item.stock].
  rewrite (cascade_no_live _ _ _ _ _ (cascaded_no_live _ _ _ HF)).
  rewrite update_first_twice by reflexivity.
  reflexivity.
Qed.

Lemma takedown_twice_changes_nothing_witness :
  post_takedown_item sample_compare sample_env
    (fst (post_takedown_item sample_compare sample_env sample_busy
            (mkTakedownReq admin_cred (Some 1))))
    (mkTakedownReq admin_cred (Some 1))
  = (fst (post_takedown_item sample_compare sample_env sample_busy
            (mkTakedownReq admin_cred (Some 1))),
     Json (mkTakedownRes true 0)).
Proof.
  apply (takedown_twice_changes_nothing sample_compare sample_env sample_env
           sample_busy _ (mkTakedownReq admin_cred (Some 1)) _
           (mkTakedownRes true 2));
    reflexivity.
Defined.



(** ** What is written once *)

Lemma nth_error_update_first_frozen (p : Order.t -> bool)
      (f : Order.t -> Order.t) (l : list Order.t) (k : nat) (o : Order.t) :
  (forall x, frozen (f x) = frozen x) ->
  nth_error l k = Some o ->
  exists o', nth_error (update_first p f l) k = Some o' /\ frozen o' = frozen o.
Proof.
  intros Hfz. revert k.
  induction l as [|x l IH]; intros [|k]; simpl; try discriminate.
  - intros [= ->]. destruct (p o); simpl; eauto.
  - intros Hk. destruct (p x); simpl; eauto.
Qed.

Lemma nth_error_cascaded_frozen (itemId : Z) (os os' : list Order.t)
      (k : nat) (o : Order.t) :
  Forall2 (cascaded itemId) os os' -> nth_error os k = Some o ->
  exists o', nth_error os' k = Some o' /\ frozen o' = frozen o.
Proof.
  intros HF. revert k.
  induction HF as [|x x' l l' Hx Hl IH]; intros [|k]; simpl; try discriminate.
  - intros [= ->]. exists x'. split; [reflexivity|]. unfold cascaded in Hx.
    destruct (live_order_of itemId o); [destruct Hx as [ts ->]|subst];
      reflexivity.
  - auto.
Qed.

Lemma step_keeps_frozen (cmp : string -> string -> bool) (d : data)
      (rq : request) (k : nat) (o : Order.t) :
  nth_error (orders d) k = Some o ->
  exists o',
    nth_error (orders (step cmp d rq)) k = Some o' /\ frozen o' = frozen o.
Proof.
  intros Hk. destruct rq as [e r|e r|r|e r]; simpl.
  - destruct (post_order e d r) as [d' [o1|code msg]] eqn:Hp.
    + destruct (post_order_inv _ _ _ _ _ Hp)
        as (itemId & item & buyer & _ & _ & _ & _ & _ & _ & ->).
      simpl. exists o. split; [|reflexivity].
      rewrite nth_error_app1; [exact Hk|].
      apply nth_error_Some. congruence.
    + destruct (post_order_cases e d r) as [(m & Hm & _)|(o1 & Hj)].
      * rewrite Hm in Hp. injection Hp as <- _ _. simpl. eauto.
      * rewrite Hp in Hj. discriminate.
  - destruct (post_cancel_order_cases cmp e d r)
      as [(code & msg & ->)|(orderId & ord & _ & _ & ->)]; simpl; [eauto|].
    now apply nth_error_update_first_frozen.
  - destruct (post_update_arrival_cases cmp d r)
      as [(code & msg & ->)|(orderId & ord & upd & _ & _ & Hu & ->)];
      simpl; [eauto|].
    apply nth_error_update_first_frozen; [|exact Hk].
    intros x. destruct Hu as [[-> _]|[-> _]]; reflexivity.
  - destruct (post_takedown_item_cases cmp e d r)
      as [(code & msg & ->)|(itemId & item & os' & _ & HF & ->)];
      simpl; [eauto|].
    exact (nth_error_cascaded_frozen _ _ _ _ _ HF Hk).
Qed.

(** X12: an order is written once.  Through any sequence of requests, an
    order stays at its place in the order array and keeps its id, item,
    item name, user name, buyer name, quantity, amount, creation date and
    cancel token; only its status and its two dates ever change.  The
    amount in particular is never computed again. *)
Theorem server_run_keeps_orders (cmp : string -> string -> bool)
        (hash : string -> string -> string) (rqs : list server_request)
        (d : data) (k : nat) (o : Order.t) :
  nth_error (orders d) k = Some o ->
  exists o',
    nth_error (orders (server_run cmp hash d rqs)) k = Some o'
    /\ frozen o' = frozen o.
Proof.
  unfold server_run. revert d o.
  induction rqs as [|rq l IH]; intros d o Hk; simpl; [eauto|].
  assert (exists o1, nth_error (orders (server_step cmp hash d rq)) k = Some o1
                     /\ frozen o1 = frozen o) as (o1 & Hk1 & Hz1).
  { destruct rq as [rq|salt r|r]; simpl.
    - now apply step_keeps_frozen.
    - destruct (create_account_items_orders cmp hash salt d r) as [_ ->].
      eauto.
    - destruct (create_item_cases cmp d r)
        as [(code & msg & ->)|(name & _ & _ & _ & ->)]; simpl; eauto. }
  destruct (IH _ _ Hk1) as (o' & Hk' & Hz'). exists o'.
  split; [exact Hk'|congruence].
Qed.

Lemma server_run_keeps_orders_witness :
  exists o',
    nth_error
      (orders
         (server_run sample_compare (fun salt p => "hash:" ++ p)%string
            sample_busy
            [Core (UpdateArrival
                     (mkArrivalReq admin_cred (Some 1) (Some "2024-02-01")));
             Core (TakedownItem sample_env
                     (mkTakedownReq admin_cred (Some 1)))]))
      0
    = Some o'
    /\ frozen o' = frozen live_guest_order.
Proof.
  apply server_run_keeps_orders. reflexivity.
Defined.

(** ** Witnesses of the two invariants behind C1 and C5 *)

Lemma run_nonneg_quantities_witness :
  Forall (fun it => 0 <= Item.stock it)
    (items (run sample_compare sample_busy
              [PlaceOrder sample_env
                 (mkOrderReq (Some "bob") None (Some 2) (Some 4));
               CancelOrder sample_env
                 (mkCancelReq (Some 4) (Some "eve") None None);
               TakedownItem sample_env (mkTakedownReq admin_cred (Some 2))])).
Proof.
  apply run_nonneg_quantities.
  - split; simpl; repeat constructor; discriminate.
  - repeat constructor. simpl. discriminate.
Defined.

Lemma canceled_kept_by_other_handlers_witness :
  exists o',
    nth_error
      (orders (step sample_compare sample_busy
                 (TakedownItem sample_env (mkTakedownReq admin_cred (Some 1)))))
      1
    = Some o'
    /\ Order.status o' = canceled.
Proof.
  eapply canceled_kept_by_other_handlers.
  - discriminate.
  - reflexivity.
  - reflexivity.
Defined.

(** ** Cancel tokens, again *)

Lemma get_nth_error (s : string) (n : nat) :
  String.get n s = nth_error (list_ascii_of_string s) n.
Proof.
  revert n. induction s as [|c s IH]; intros [|n]; simpl; auto.
Qed.

Lemma join_map_injective (f g : nat -> option ascii) (ks : list nat) :
  (forall k, In k ks -> exists c, f k = Some c) ->
  (forall k, In k ks -> exists c, g k = Some c) ->
  join (map f ks) = join (map g ks) ->
  forall k, In k ks -> f k = g k.
Proof.
  induction ks as [|a ks IH]; simpl; intros Hf Hg Heq k Hk; [contradiction|].
  destruct (Hf a) as (c & Hc); [auto|]. destruct (Hg a) as (c' & Hc'); [auto|].
  rewrite Hc, Hc' in Heq. injection Heq as -> Heq.
  destruct Hk as [<-|Hk]; [congruence|]. apply IH; auto.
Qed.

Lemma length_list_ascii (s : string) :
  List.length (list_ascii_of_string s) = String.length s.
Proof. induction s; simpl; congruence. Qed.

Lemma get_injective (s : string) (i j : nat) :
  NoDup (list_ascii_of_string s) -> (i < String.length s)%nat ->
  String.get i s = String.get j s -> i = j.
Proof.
  intros Hnd Hi Heq. rewrite !get_nth_error in Heq.
  rewrite NoDup_nth_error in Hnd. apply Hnd; [|exact Heq].
  now rewrite length_list_ascii.
Qed.

Lemma join_get_injective (s : string) (f1 f2 : nat -> nat) (ks : list nat) :
  NoDup (list_ascii_of_string s) ->
  (forall k, In k ks -> (f1 k < String.length s)%nat) ->
  (forall k, In k ks -> (f2 k < String.length s)%nat) ->
  join (map (fun k => String.get (f1 k) s) ks)
  = join (map (fun k => String.get (f2 k) s) ks) ->
  forall k, In k ks -> f1 k = f2 k.
Proof.
  intros Hnd H1 H2 Heq k Hk.
  apply (get_injective s); [exact Hnd|auto|].
  apply (join_map_injective (fun k => String.get (f1 k) s)
                            (fun k => String.get (f2 k) s) ks); auto.
  - intros j Hj. destruct (get_in_range s (f1 j)) as (c & Hc & _); eauto.
  - intros j Hj. destruct (get_in_range s (f2 j)) as (c & Hc & _); eauto.
Qed.

Lemma generateCancelToken_eq (e : env) :
  generateCancelToken e
  = join (map (fun k => String.get (rand36 e k) alphabet) (seq 0 24)).
Proof. unfold generateCancelToken. reflexivity. Qed.

(** X15: the token is a faithful copy of the 24 random indices: two runs
    of the generator (indices below 36) that give the same token drew the
    same index at each of the 24 positions.  A token therefore carries all
    of the 24 draws, 36 to the power 24 possible values. *)
Theorem generateCancelToken_injective (e1 e2 : env) :
  (forall k, (k < 24)%nat -> (rand36 e1 k < 36)%nat) ->
  (forall k, (k < 24)%nat -> (rand36 e2 k < 36)%nat) ->
  generateCancelToken e1 = generateCancelToken e2 ->
  forall k, (k < 24)%nat -> rand36 e1 k = rand36 e2 k.
Proof.
  intros H1 H2 Heq k Hk. rewrite !generateCancelToken_eq in Heq.
  destruct alphabet_symbols as (Hlen & Hnd & _).
  apply (join_get_injective alphabet (rand36 e1) (rand36 e2) (seq 0 24) Hnd).
  - intros j Hj. apply in_seq in Hj. rewrite Hlen. apply H1. lia.
  - intros j Hj. apply in_seq in Hj. rewrite Hlen. apply H2. lia.
  - exact Heq.
  - apply in_seq. lia.
Qed.

Lemma generateCancelToken_injective_witness :
  rand36 sample_env 5
  = rand36 (mkEnv (fun _ => "later") (fun k => (3 + k)%nat)) 5.
Proof.
  apply (generateCancelToken_injective sample_env
           (mkEnv (fun _ => "later") (fun k => (3 + k)%nat))).
  - intros k Hk. simpl. lia.
  - intros k Hk. simpl. lia.
  - vm_compute. reflexivity.
  - lia.
Defined.

(** ** Accounts *)

Lemma find_app_none {A} (p : A -> bool) (l : list A) (x : A) :
  find p l = None -> p x = true -> find p (l ++ [x]) = Some x.
Proof.
  unfold find. induction l as [|y r IH]; simpl; intros Hn Hx.
  - now rewrite Hx.
  - destruct (p y); [discriminate|auto].
Qed.

Lemma find_ext {A} (p q : A -> bool) (l : list A) :
  (forall x, p x = q x) -> find p l = find q l.
Proof.
  intros H. unfold find. induction l as [|y r IH]; simpl; [reflexivity|].
  now rewrite H, IH.
Qed.

Lemma toLowerCase_truthy (u v : string) :
  toLowerCase u = toLowerCase v -> truthy v = true -> truthy u = true.
Proof.
  destruct u, v; simpl; intros H Hv; try discriminate; auto.
Qed.

Lemma step_accounts (cmp : string -> string -> bool) (d : data)
      (rq : request) :
  accounts (step cmp d rq) = accounts d.
Proof.
  destruct rq as [e r|e r|r|e r]; simpl.
  - destruct (post_order e d r) as [d' [o|code msg]] eqn:Hp.
    + destruct (post_order_inv _ _ _ _ _ Hp)
        as (itemId & item & buyer & _ & _ & _ & _ & _ & _ & ->).
      reflexivity.
    + destruct (post_order_cases e d r) as [(m & Hm & _)|(o & Hj)].
      * rewrite Hm in Hp. now injection Hp as <- _ _.
      * rewrite Hp in Hj. discriminate.
  - now destruct (post_cancel_order_cases cmp e d r)
      as [(code & msg & ->)|(orderId & ord & _ & _ & ->)].
  - now destruct (post_update_arrival_cases cmp d r)
      as [(code & msg & ->)|(orderId & ord & upd & _ & _ & _ & ->)].
  - now destruct (post_takedown_item_cases cmp e d r)
      as [(code & msg & ->)|(itemId & item & os' & _ & _ & ->)].
Qed.

Lemma create_account_cases (cmp : string -> string -> bool)
      (hash : string -> string -> string) (salt : string) (d : data)
      (r : account_req) :
  (exists resp, post_create_account cmp hash salt d r = (d, resp))
  \/ (exists u p f,
        ca_username r = Some u /\ ca_password r = Some p
        /\ ca_fullName r = Some f
        /\ truthy u = true /\ truthy p = true
        /\ Nat.ltb (String.length p) 4 = false
        /\ find (account_named u) (accounts d) = None
        /\ post_create_account cmp hash salt d r
           = (mkData (accounts d ++ [Account.mk u f (Some (hash salt p))])
                     (items d) (orders d),
              Json (mkView u f))).
Proof.
  unfold post_create_account.
  destruct (ca_username r) as [u|]; [|left; eauto].
  destruct (truthy u) eqn:Hu; simpl; [|left; eauto].
  destruct (ca_password r) as [p|]; simpl; [|left; eauto].
  destruct (truthy p) eqn:Hp; simpl; [|left; eauto].
  destruct (Nat.ltb (String.length p) 4) eqn:Hl; [left; eauto|].
  destruct (find _ (accounts d)) eqn:Hf.
  - left. destruct (_ || _)%bool; eauto.
  - unfold bad_fullName. destruct (ca_fullName r) as [f|]; [|left; eauto].
    destruct (_ || _)%bool; [left; eauto|].
    right. exists u, p, f. auto 10.
Qed.

(** X16: the user names stay distinct up to letter case.  An account is
    added only under a name that no stored account has in any letter case,
    and no other handler touches the accounts. *)
Theorem server_run_distinct_usernames (cmp : string -> string -> bool)
        (hash : string -> string -> string) (rqs : list server_request)
        (d : data) :
  distinct_usernames d -> distinct_usernames (server_run cmp hash d rqs).
Proof.
  unfold server_run. revert d.
  induction rqs as [|rq l IH]; intros d Hd; simpl; [exact Hd|].
  apply IH. unfold distinct_usernames in *.
  destruct rq as [rq|salt r|r]; simpl.
  - now rewrite step_accounts.
  - destruct (create_account_cases cmp hash salt d r)
      as [(resp & ->)|(u & p & f & _ & _ & _ & _ & _ & _ & Hf & ->)];
      [exact Hd|].
    simpl. rewrite map_app. simpl.
    apply NoDup_app; [exact Hd|repeat constructor; intros []|].
    intros x Hx [<-|[]]. apply in_map_iff in Hx as (a & Ha & Hin).
    pose proof (find_none _ _ Hf a Hin) as Hn.
    unfold account_named in Hn. apply String.eqb_neq in Hn. contradiction.
  - now destruct (create_item_cases cmp d r)
      as [(code & msg & ->)|(name & _ & _ & _ & ->)].
Qed.

Lemma server_run_distinct_usernames_witness :
  distinct_usernames
    (server_run sample_compare (fun salt p => "hash:" ++ p)%string sample_data
       [CreateAccount "s1" (mkAccountReq (Some "Bob") (Some "hunter2")
                                         (Some "Bob Ross"));
        CreateAccount "s2" (mkAccountReq (Some "BOB") (Some "password")
                                         (Some "Another Bob"))]).
Proof.
  apply server_run_distinct_usernames.
  unfold distinct_usernames. simpl. repeat constructor. intros [].
Defined.

Lemma find_account_after_signup (l : list Account.t) (u u' : string)
      (acc : Account.t) :
  find (account_named u) l = None ->
  toLowerCase u' = toLowerCase u ->
  toLowerCase (Account.username acc) = toLowerCase u ->
  find (account_named u') (l ++ [acc]) = Some acc.
Proof.
  intros Hf Hu' Hacc. apply find_app_none.
  - rewrite <- Hf. apply find_ext. intros a. unfold account_named.
    now rewrite Hu'.
  - unfold account_named. rewrite Hu', Hacc. apply String.eqb_refl.
Qed.

(** X17: signing up and logging in again.  When a request creates an
    account (no stored account has the name in any letter case), then on
    the new document the same handler, given the name in any letter case and
    the same password, answers with the same account and changes nothing;
    given a password that bcrypt rejects it answers 400 and changes nothing;
    and [checkUserCredentials] accepts the name with the password. *)
Theorem signup_then_login (cmp : string -> string -> bool)
        (hash : string -> string -> string) (salt : string) (d d1 : data)
        (r : account_req) (u p : string) (v : account_view) :
  bcrypt_ok cmp hash ->
  ca_username r = Some u -> ca_password r = Some p ->
  find (account_named u) (accounts d) = None ->
  post_create_account cmp hash salt d r = (d1, Json v) ->
  forall salt' u' f',
    toLowerCase u' = toLowerCase u ->
    post_create_account cmp hash salt' d1 (mkAccountReq (Some u') (Some p) f')
    = (d1, Json v)
    /\ checkUserCredentials cmp d1 u' p = true
    /\ forall p', cmp p' (hash salt p) = false ->
         exists msg,
           post_create_account cmp hash salt' d1
             (mkAccountReq (Some u') (Some p') f')
           = (d1, Error 400 msg).
Proof.
  intros Hb Hu Hp Hnone Hc salt' u' f' Hu'.
  destruct (create_account_cases cmp hash salt d r)
    as [(resp & Hr)|(u0 & p0 & f & Hu0 & Hp0 & _ & Htu & Htp & Hlen & _ & Hr)].
  { exfalso. pose proof Hc as Hc'. rewrite Hr in Hc'.
    injection Hc' as Hd1 _. subst d1.
    revert Hc. unfold post_create_account.
    rewrite Hu, Hp, Hnone. cbn [default].
    destruct (truthy u); cbn [negb]; [|discriminate].
    destruct (_ || _)%bool; [discriminate|].
    destruct (bad_fullName _); [discriminate|].
    intros [= Hd _].
    apply (f_equal (fun x => List.length (accounts x))) in Hd. simpl in Hd.
    rewrite length_app in Hd. simpl in Hd. lia. }
  rewrite Hu in Hu0. rewrite Hp in Hp0. injection Hu0 as <-. injection Hp0 as <-.
  rewrite Hr in Hc. injection Hc as <- <-.
  set (acc := Account.mk u f (Some (hash salt p))).
  assert (Hfind : find (account_named u') (accounts d ++ [acc]) = Some acc)
    by (apply find_account_after_signup with (u := u); auto).
  assert (Htu' : truthy u' = true) by exact (toLowerCase_truthy _ _ Hu' Htu).
  destruct (Hb salt p) as [Hcmp Hth].
  split; [|split].
  - unfold post_create_account. cbn [ca_username ca_password default accounts].
    rewrite Htu', Htp, Hlen, Hfind. cbn [negb orb].
    cbn [acc Account.passwordHash truthy_opt default Account.username
         Account.fullName].
    now rewrite Hth, Hcmp.
  - unfold checkUserCredentials. rewrite Htu', Htp. cbn [negb orb accounts].
    assert (Hfu : find (user_account u') (accounts d ++ [acc]) = Some acc).
    { rewrite <- Hfind. apply find_ext. intros a.
      unfold user_account, account_named.
      destruct (String.eqb_spec (toLowerCase (Account.username a))
                                (toLowerCase u')) as [Heq|]; simpl;
        [|now rewrite andb_false_r].
      rewrite andb_true_r. symmetry in Heq.
      exact (toLowerCase_truthy _ _ (eq_sym Heq) Htu'). }
    rewrite Hfu.
    cbn [acc Account.passwordHash truthy_opt default].
    now rewrite Hth, Hcmp.
  - intros p' Hrej. unfold post_create_account.
    cbn [ca_username ca_password default accounts]. rewrite Htu'. cbn [negb].
    destruct (_ || _)%bool; [eauto|]. rewrite Hfind.
    cbn [acc Account.passwordHash truthy_opt default].
    rewrite Hth, Hrej. simpl. eauto.
Qed.

Lemma signup_then_login_witness :
  let d1 := mkData (accounts sample_data
                      ++ [Account.mk "Bob" "Bob Ross" (Some "hash:hunter2")])
                   [widget] [] in
  post_create_account sample_compare (fun _ p => "hash:" ++ p)%string "s2" d1
    (mkAccountReq (Some "BOB") (Some "hunter2") None)
  = (d1, Json (mkView "Bob" "Bob Ross"))
  /\ checkUserCredentials sample_compare d1 "BOB" "hunter2" = true
  /\ forall p', sample_compare p' "hash:hunter2" = false ->
       exists msg,
         post_create_account sample_compare (fun _ p => "hash:" ++ p)%string
           "s2" d1 (mkAccountReq (Some "BOB") (Some p') None)
         = (d1, Error 400 msg).
Proof.
  apply (signup_then_login sample_compare (fun _ p => "hash:" ++ p)%string
           "s1" sample_data _
           (mkAccountReq (Some "Bob") (Some "hunter2") (Some "Bob Ross"))
           "Bob" "hunter2" (mkView "Bob" "Bob Ross")).
  - intros salt p. split; [apply String.eqb_refl|reflexivity].
  - reflexivity.
  - reflexivity.
  - reflexivity.
  - reflexivity.
  - reflexivity.
Defined.

(** X18: the first account named admin is the admin.  On a document that
    has no admin account, anybody can sign up under the name admin (in any
    letter case) with a password of four characters or more and a full
    name; from then on the admin check accepts that name and password.
    The password and the full name are ASCII, on which the lengths and the
    trimming of the embedding are those of the code. *)
Theorem first_admin_signup (cmp : string -> string -> bool)
        (hash : string -> string -> string) (salt : string) (d : data)
        (u p f : string) :
  bcrypt_ok cmp hash ->
  find is_admin_account (accounts d) = None ->
  toLowerCase u = "admin" -> (4 <= String.length p)%nat ->
  bad_fullName (Some f) = false ->
  ascii_only p = true -> ascii_only f = true ->
  exists d1,
    post_create_account cmp hash salt d (mkAccountReq (Some u) (Some p) (Some f))
    = (d1, Json (mkView u f))
    /\ checkAdminCredentials cmp d1 u p = true.
Proof.
  intros Hb Hnone Hu Hlen Hf _ _.
  assert (Htu : truthy u = true) by (destruct u; [discriminate|reflexivity]).
  assert (Htp : truthy p = true) by (destruct p; [simpl in Hlen; lia|reflexivity]).
  assert (Hfn : find (account_named u) (accounts d) = None).
  { rewrite <- Hnone. apply find_ext. intros a.
    unfold account_named, is_admin_account. rewrite Hu.
    destruct (String.eqb_spec (toLowerCase (Account.username a)) "admin")
      as [Heq|]; [|now rewrite andb_false_r].
    rewrite andb_true_r.
    destruct (Account.username a); [discriminate|reflexivity]. }
  destruct (Hb salt p) as [Hcmp Hth].
  eexists. split.
  - unfold post_create_account. cbn [ca_username ca_password ca_fullName default].
    rewrite Htu, Htp, Hfn, Hf. cbn [negb orb].
    destruct (Nat.ltb_spec (String.length p) 4); [lia|]. reflexivity.
  - unfold checkAdminCredentials. rewrite Htu, Htp, Hu. cbn [negb orb accounts].
    rewrite (find_app_none _ _ _ Hnone)
      by (unfold is_admin_account; simpl; now rewrite Htu, Hu).
    simpl. now rewrite Hth, Hcmp.
Qed.

Lemma first_admin_signup_witness :
  exists d1,
    post_create_account sample_compare (fun _ p => "hash:" ++ p)%string "s"
      (mkData [] [widget] [])
      (mkAccountReq (Some "Admin") (Some "letmein") (Some "Eve"))
    = (d1, Json (mkView "Admin" "Eve"))
    /\ checkAdminCredentials sample_compare d1 "Admin" "letmein" = true.
Proof.
  apply (first_admin_signup sample_compare (fun _ p => "hash:" ++ p)%string).
  - intros salt p. split; [apply String.eqb_refl|reflexivity].
  - reflexivity.
  - reflexivity.
  - simpl. lia.
  - reflexivity.
  - reflexivity.
  - reflexivity.
Defined.

(** X19: the start-up block gives an admin without hash the default
    password.  When the first admin account has no hash (or an empty one),
    after [ensureAdminPassword] the admin check accepts ["admin"] with the
    built-in password; an admin that has a hash and a document without admin
    are left as they are, so that running the block again changes nothing. *)
Theorem ensureAdminPassword_default (cmp : string -> string -> bool)
        (hash : string -> string -> string) (salt salt' : string) (d : data) :
  bcrypt_ok cmp hash ->
  (forall admin,
     find is_admin_account (accounts d) = Some admin ->
     truthy_opt (Account.passwordHash admin) = false ->
     checkAdminCredentials cmp (ensureAdminPassword hash salt d)
                           "admin" "GoofyGuy1!" = true)
  /\ (forall admin,
        find is_admin_account (accounts d) = Some admin ->
        truthy_opt (Account.passwordHash admin) = true ->
        ensureAdminPassword hash salt d = d)
  /\ (find is_admin_account (accounts d) = None ->
      ensureAdminPassword hash salt d = d)
  /\ ensureAdminPassword hash salt' (ensureAdminPassword hash salt d)
     = ensureAdminPassword hash salt d.
Proof.
  intros Hb.
  assert (Hset : forall admin,
             find is_admin_account (accounts d) = Some admin ->
             find is_admin_account
               (update_first is_admin_account
                  (set_passwordHash (hash salt "GoofyGuy1!")) (accounts d))
             = Some (set_passwordHash (hash salt "GoofyGuy1!") admin)).
  { intros admin Hf. apply (find_update_first _ _ _ _ Hf).
    pose proof (find_some _ _ Hf) as [_ Hx]. exact Hx. }
  destruct (Hb salt "GoofyGuy1!") as [Hcmp Hth].
  split; [|split; [|split]].
  - intros admin Hf Hh. unfold ensureAdminPassword. rewrite Hf, Hh.
    cbn [negb]. unfold checkAdminCredentials. cbn [accounts].
    rewrite (Hset _ Hf). simpl. now rewrite Hth, Hcmp.
  - intros admin Hf Hh. unfold ensureAdminPassword. now rewrite Hf, Hh.
  - intros Hf. unfold ensureAdminPassword. now rewrite Hf.
  - unfold ensureAdminPassword at 2.
    destruct (find is_admin_account (accounts d)) as [admin|] eqn:Hf.
    + destruct (truthy_opt (Account.passwordHash admin)) eqn:Hh; cbn [negb].
      * unfold ensureAdminPassword. now rewrite Hf, Hh.
      * unfold ensureAdminPassword. cbn [accounts].
        rewrite (Hset _ eq_refl).
        cbn [set_passwordHash Account.passwordHash truthy_opt].
        rewrite Hth. cbn [negb]. now rewrite Hf, Hh.
    + unfold ensureAdminPassword. now rewrite Hf.
Qed.

Lemma ensureAdminPassword_default_witness :
  checkAdminCredentials sample_compare
    (ensureAdminPassword (fun _ p => "hash:" ++ p)%string "s"
       (mkData [Account.mk "Admin" "" None] [] []))
    "admin" "GoofyGuy1!"
  = true.
Proof.
  assert (Hb : bcrypt_ok sample_compare (fun _ p => "hash:" ++ p)%string).
  { intros salt p. split; [apply String.eqb_refl|reflexivity]. }
  destruct (ensureAdminPassword_default sample_compare
              (fun _ p => "hash:" ++ p)%string "s" "s"
              (mkData [Account.mk "Admin" "" None] [] []) Hb) as [H _].
  apply (H (Account.mk "Admin" "" None)); reflexivity.
Defined.

(** X20: the admin is a user.  Whenever the admin check accepts a name and
    a password, the user check of the wish-list handlers accepts them
    too. *)
Theorem admin_credentials_are_user_credentials
        (cmp : string -> string -> bool) (d : data) (u p : string) :
  checkAdminCredentials cmp d u p = true ->
  checkUserCredentials cmp d u p = true.
Proof.
  unfold checkAdminCredentials, checkUserCredentials.
  destruct (_ || _)%bool; [discriminate|].
  destruct (String.eqb_spec (toLowerCase u) "admin") as [Hu|]; simpl;
    [|discriminate].
  rewrite (find_ext (user_account u) is_admin_account)
    by (intros a; unfold user_account, is_admin_account; now rewrite Hu).
  destruct (find _ (accounts d)) as [admin|]; [|discriminate].
  destruct (Account.passwordHash admin) as [h|]; simpl; [|discriminate].
  destruct (truthy h); simpl; auto.
Qed.

Lemma admin_credentials_are_user_credentials_witness :
  checkUserCredentials sample_compare sample_data "ADMIN" "secret" = true.
Proof.
  apply admin_credentials_are_user_credentials. reflexivity.
Defined.

(** ** New items *)

(** X21: an item created by the admin is in the shop at once.  With admin
    credentials and a non-empty name the handler appends an active item
    under an id that no stored item has (price and stock 0 when not given);
    the item is listed by GET /api/items and it is the item that an order
    for its id selects.  Without a name the answer is 400 and nothing
    changes. *)
Theorem create_item_is_listed (cmp : string -> string -> bool) (d : data)
        (r : item_req) :
  checkAdmin cmp d (ci_cred r) = true ->
  (truthy_opt (ci_name r) = false ->
   post_create_item cmp d r = (d, Error 400 "Item name required"))
  /\ (truthy_opt (ci_name r) = true ->
      exists it,
        post_create_item cmp d r
        = (mkData (accounts d) (items d ++ [it]) (orders d), Json it)
        /\ Item.name it = default "" (ci_name r)
        /\ Item.price it = default 0 (ci_price r)
        /\ Item.stock it = default 0 (ci_stock r)
        /\ ~ In (Item.id it) (map Item.id (items d))
        /\ In it (get_items (fst (post_create_item cmp d r)))
        /\ find (active_item_with_id (Item.id it))
                (items (fst (post_create_item cmp d r)))
           = Some it).
Proof.
  intros Hadm. unfold post_create_item. rewrite Hadm. cbn [negb].
  split; intros Hn; rewrite Hn; cbn [negb]; [reflexivity|].
  eexists. split; [reflexivity|]. cbn [fst items Item.name Item.price
                                       Item.stock Item.id].
  assert (Hfresh : ~ In (nextId (map Item.id (items d)))
                        (map Item.id (items d))).
  { intros Hin. pose proof (nextId_above (map Item.id (items d))) as H.
    rewrite Forall_forall in H. specialize (H _ Hin). lia. }
  repeat split; auto.
  - unfold get_items. cbn [items]. apply filter_In. split; [|reflexivity].
    apply in_or_app. right. now left.
  - apply find_app_none.
    + destruct (find _ (items d)) as [x|] eqn:Hx; [|reflexivity].
      exfalso. apply Hfresh. apply find_some in Hx as [Hin Hp].
      unfold active_item_with_id in Hp. apply andb_true_iff in Hp as [Hp _].
      apply Z.eqb_eq in Hp. rewrite <- Hp. now apply in_map.
    + unfold active_item_with_id. simpl. now rewrite Z.eqb_refl.
Qed.

Lemma create_item_is_listed_witness :
  exists it,
    post_create_item sample_compare sample_busy
      (mkItemReq admin_cred (Some "Scarf") (Some 1500) None)
    = (mkData (accounts sample_busy) (items sample_busy ++ [it])
              (orders sample_busy), Json it)
    /\ Item.name it = "Scarf"
    /\ Item.price it = 1500
    /\ Item.stock it = 0
    /\ ~ In (Item.id it) (map Item.id (items sample_busy))
    /\ In it (get_items (fst (post_create_item sample_compare sample_busy
                (mkItemReq admin_cred (Some "Scarf") (Some 1500) None))))
    /\ find (active_item_with_id (Item.id it))
            (items (fst (post_create_item sample_compare sample_busy
               (mkItemReq admin_cred (Some "Scarf") (Some 1500) None))))
       = Some it.
Proof.
  destruct (create_item_is_listed sample_compare sample_busy
              (mkItemReq admin_cred (Some "Scarf") (Some 1500) None))
    as [_ H]; [reflexivity|].
  apply H. reflexivity.
Defined.

(** ** The stored wish list *)

Lemma fold_set_add_spec (l acc : list Z) :
  NoDup acc ->
  NoDup (fold_left set_add l acc)
  /\ forall x, In x (fold_left set_add l acc) <-> In x acc \/ In x l.
Proof.
  revert acc. induction l as [|a l IH]; simpl; intros acc Hacc.
  - split; [exact Hacc|]. intros x. tauto.
  - assert (Hadd : NoDup (set_add acc a)
                   /\ forall x, In x (set_add acc a) <-> In x acc \/ a = x).
    { unfold set_add. destruct (existsb (Z.eqb a) acc) eqn:He.
      - split; [exact Hacc|]. intros x. split; [tauto|].
        intros [H|<-]; [exact H|].
        apply existsb_exists in He as (y & Hy & Hay).
        apply Z.eqb_eq in Hay. now subst.
      - split.
        + apply NoDup_app; [exact Hacc|repeat constructor; intros []|].
          intros x Hx [<-|[]].
          assert (existsb (Z.eqb a) acc = true); [|congruence].
          apply existsb_exists. exists a. split; [exact Hx|apply Z.eqb_refl].
        + intros x. rewrite in_app_iff. simpl. tauto. }
    destruct Hadd as [Hnd Hin]. destruct (IH _ Hnd) as [IH1 IH2].
    split; [exact IH1|]. intros x. rewrite IH2, Hin. tauto.
Qed.

Lemma fold_set_add_nodup (l acc : list Z) :
  NoDup (acc ++ l) -> fold_left set_add l acc = (acc ++ l)%list.
Proof.
  revert acc. induction l as [|a l IH]; simpl; intros acc Hnd.
  - now rewrite app_nil_r.
  - assert (Ha : existsb (Z.eqb a) acc = false).
    { destruct (existsb (Z.eqb a) acc) eqn:He; [|reflexivity].
      apply existsb_exists in He as (y & Hy & Hay).
      apply Z.eqb_eq in Hay. subst y.
      apply NoDup_remove_2 in Hnd. elim Hnd. apply in_or_app. now left. }
    unfold set_add at 2. rewrite Ha.
    rewrite IH; rewrite <- app_assoc; [reflexivity|exact Hnd].
Qed.

(** X22: the wish list that is stored has every id of the request once,
    in the order of first occurrence: it has no duplicate, it has the same
    members as the request, a request without duplicate is stored as it is,
    and storing a stored list again changes nothing.  A body without array
    gives the empty list. *)
Theorem normalize_wishlist_dedupes (w : option (list Z)) :
  NoDup (normalize_wishlist w)
  /\ (forall x, In x (normalize_wishlist w) <-> In x (default [] w))
  /\ (NoDup (default [] w) -> normalize_wishlist w = default [] w)
  /\ normalize_wishlist (Some (normalize_wishlist w)) = normalize_wishlist w
  /\ normalize_wishlist None = [].
Proof.
  unfold normalize_wishlist.
  destruct (fold_set_add_spec (default [] w) [] (NoDup_nil Z)) as [Hnd Hin].
  split; [exact Hnd|]. split; [intros x; rewrite Hin; simpl; tauto|].
  split; [intros H; now apply (fold_set_add_nodup _ [])|].
  split; [|reflexivity].
  cbn [default]. now apply (fold_set_add_nodup _ []).
Qed.

(** ** Escaping *)

Lemma escape_char_safe (c : ascii) :
  forallb (fun x => negb (is_markup x)) (list_ascii_of_string (escape_char c))
  = true.
Proof.
  unfold escape_char.
  destruct (Ascii.eqb_spec c "&"); [reflexivity|].
  destruct (Ascii.eqb_spec c "<"); [reflexivity|].
  destruct (Ascii.eqb_spec c ">"); [reflexivity|].
  destruct (Ascii.eqb_spec c dquote); [reflexivity|].
  destruct (Ascii.eqb_spec c "'"); [reflexivity|].
  simpl. unfold is_markup.
  destruct (Ascii.eqb_spec c "<"); [contradiction|].
  destruct (Ascii.eqb_spec c ">"); [contradiction|].
  destruct (Ascii.eqb_spec c dquote); [contradiction|].
  destruct (Ascii.eqb_spec c "'"); [contradiction|].
  reflexivity.
Qed.

Lemma list_ascii_app (a b : string) :
  list_ascii_of_string (a ++ b)
  = (list_ascii_of_string a ++ list_ascii_of_string b)%list.
Proof. induction a as [|c a IH]; simpl; [reflexivity|now rewrite IH]. Qed.

Lemma escape_char_injective (c1 c2 : ascii) (r1 r2 : string) :
  (escape_char c1 ++ r1)%string = (escape_char c2 ++ r2)%string ->
  c1 = c2 /\ r1 = r2.
Proof.
  unfold escape_char.
  destruct (Ascii.eqb_spec c1 "&"); [|
  destruct (Ascii.eqb_spec c1 "<"); [|
  destruct (Ascii.eqb_spec c1 ">"); [|
  destruct (Ascii.eqb_spec c1 dquote); [|
  destruct (Ascii.eqb_spec c1 "'")]]]];
  (destruct (Ascii.eqb_spec c2 "&"); [|
   destruct (Ascii.eqb_spec c2 "<"); [|
   destruct (Ascii.eqb_spec c2 ">"); [|
   destruct (Ascii.eqb_spec c2 dquote); [|
   destruct (Ascii.eqb_spec c2 "'")]]]]);
  simpl; intros H; inversion H; subst; try (split; congruence);
  congruence.
Qed.

(** X23: [escapeHtml] is safe and loses nothing.  Its result contains no
    angle bracket, no double quote and no apostrophe, whatever the input,
    so it cannot open or close a tag or an attribute; and two different
    strings are never escaped to the same text. *)
Theorem escapeHtml_safe_and_injective (s : string) :
  forallb (fun c => negb (is_markup c))
          (list_ascii_of_string (escapeHtml (Some s))) = true
  /\ (forall s', escapeHtml (Some s) = escapeHtml (Some s') <-> s = s')
  /\ escapeHtml None = "".
Proof.
  split; [|split; [|reflexivity]].
  - simpl. induction s as [|c s IH]; simpl; [reflexivity|].
    rewrite list_ascii_app, forallb_app, IH, escape_char_safe. reflexivity.
  - simpl. induction s as [|c s IH]; intros [|c' s']; simpl.
    + tauto.
    + split; [|discriminate]. intros H. exfalso. revert H.
      unfold escape_char.
      repeat (destruct (Ascii.eqb _ _); [discriminate|]). discriminate.
    + split; [|discriminate]. intros H. exfalso. revert H.
      unfold escape_char.
      repeat (destruct (Ascii.eqb _ _); [discriminate|]). discriminate.
    + split.
      * intros H. apply escape_char_injective in H as [-> H].
        apply IH in H. now subst.
      * intros [= -> ->]. reflexivity.
Qed.

(** ** The order ids a guest keeps in the browser *)

Lemma find_eqb_spec (id : Z) (arr : list Z) :
  match find (fun x => x =? id) arr with
  | Some x => x = id /\ In id arr
  | None => ~ In id arr
  end.
Proof.
  unfold find. induction arr as [|a arr IH]; simpl; [tauto|].
  destruct (Z.eqb_spec a id) as [->|Hne]; [auto|].
  destruct (List.find _ arr); [destruct IH; auto|]. intros [H|H]; auto.
Qed.

Lemma filter_other_ids (id : Z) (arr : list Z) :
  ~ In id arr -> filter (fun x => negb (x =? id)) arr = arr.
Proof.
  induction arr as [|a arr IH]; simpl; intros Hn; [reflexivity|].
  destruct (Z.eqb_spec a id) as [->|Hne]; simpl.
  - elim Hn. now left.
  - rewrite IH; [reflexivity|]. intros H. apply Hn. now right.
Qed.

Lemma saveGuestOrderId_cases (id : Z) (store : option (list Z)) :
  (id = 0 \/ In id (loadGuestOrderIds store))
  /\ saveGuestOrderId id store = store
  \/ (id <> 0 /\ ~ In id (loadGuestOrderIds store))
     /\ saveGuestOrderId id store
        = Some (loadGuestOrderIds store ++ [id])%list.
Proof.
  unfold saveGuestOrderId.
  destruct (Z.eqb_spec id 0) as [->|Hnz]; [left; auto|].
  pose proof (find_eqb_spec id (loadGuestOrderIds store)) as Hf.
  destruct (find _ (loadGuestOrderIds store)) as [x|].
  - destruct Hf as [-> Hin].
    destruct (Z.eqb_spec id 0); [contradiction|]. left. auto.
  - right. auto.
Qed.

(** X24: the id store of a guest is a set with insertion order.  Saving an
    id keeps the ids that are stored, adds the id unless it is there (or is
    0, which is ignored), never makes a duplicate, and saving the same id
    again changes nothing. *)
Theorem saveGuestOrderId_is_set_insert (id : Z) (store : option (list Z)) :
  (forall x, In x (loadGuestOrderIds (saveGuestOrderId id store))
             <-> In x (loadGuestOrderIds store) \/ (x = id /\ id <> 0))
  /\ (NoDup (loadGuestOrderIds store) ->
      NoDup (loadGuestOrderIds (saveGuestOrderId id store)))
  /\ saveGuestOrderId id (saveGuestOrderId id store)
     = saveGuestOrderId id store
  /\ saveGuestOrderId 0 store = store.
Proof.
  split; [|split; [|split; [|reflexivity]]].
  - intros x.
    destruct (saveGuestOrderId_cases id store) as [[H ->]|[[Hnz Hn] ->]].
    + split; [auto|]. intros [Hx|[-> Hnz]]; [exact Hx|].
      destruct H; [contradiction|assumption].
    + cbn [loadGuestOrderIds default]. fold (loadGuestOrderIds store).
      rewrite in_app_iff. simpl. intuition.
  - intros Hnd.
    destruct (saveGuestOrderId_cases id store) as [[H ->]|[[Hnz Hn] ->]];
      [exact Hnd|].
    cbn [loadGuestOrderIds default]. fold (loadGuestOrderIds store).
    apply NoDup_app; [exact Hnd|repeat constructor; intros []|].
    intros y Hy [<-|[]]. contradiction.
  - destruct (saveGuestOrderId_cases id store) as [[H Hs]|[[Hnz Hn] Hs]].
    + now rewrite !Hs.
    + rewrite Hs.
      destruct (saveGuestOrderId_cases id
                  (Some (loadGuestOrderIds store ++ [id])%list))
        as [[H' ->]|[[_ Hn'] _]]; [reflexivity|].
      elim Hn'. cbn [loadGuestOrderIds default]. apply in_or_app.
      right. now left.
Qed.

(** X25: removing an id from the store of a guest removes exactly that id,
    keeps the others in their order and undoes a save: after the id of a
    new order has been saved and removed again, the stored ids are what
    they were. *)
Theorem removeGuestOrderId_undoes_save (id : Z) (store : option (list Z)) :
  (forall x, In x (loadGuestOrderIds (removeGuestOrderId id store))
             <-> In x (loadGuestOrderIds store) /\ x <> id)
  /\ (NoDup (loadGuestOrderIds store) ->
      NoDup (loadGuestOrderIds (removeGuestOrderId id store)))
  /\ (~ In id (loadGuestOrderIds store) ->
      loadGuestOrderIds (removeGuestOrderId id (saveGuestOrderId id store))
      = loadGuestOrderIds store).
Proof.
  unfold removeGuestOrderId. cbn [loadGuestOrderIds default].
  fold (loadGuestOrderIds store).
  split; [|split].
  - intros x. rewrite filter_In.
    destruct (Z.eqb_spec x id); simpl; intuition congruence.
  - intros Hnd. now apply NoDup_filter.
  - intros Hn. unfold saveGuestOrderId.
    destruct (Z.eqb_spec id 0) as [->|Hnz].
    { now apply filter_other_ids. }
    pose proof (find_eqb_spec id (loadGuestOrderIds store)) as Hf.
    destruct (find _ (loadGuestOrderIds store)) as [x|].
    + destruct Hf as [_ Hin]. contradiction.
    + cbn [loadGuestOrderIds default]. fold (loadGuestOrderIds store).
      rewrite filter_app, (filter_other_ids _ _ Hn). simpl.
      rewrite Z.eqb_refl. simpl. apply app_nil_r.
Qed.

(** ** What the handlers do to the items *)

Lemma nth_error_update_first_kept (p : Item.t -> bool)
      (f : Item.t -> Item.t) (l : list Item.t) (k : nat) (it : Item.t) :
  (forall x, item_kept x (f x)) ->
  nth_error l k = Some it ->
  exists it', nth_error (update_first p f l) k = Some it' /\ item_kept it it'.
Proof.
  intros Hf. assert (Hrefl : forall x, item_kept x x) by (now repeat split).
  revert k. induction l as [|x l IH]; intros [|k]; simpl; try discriminate.
  - intros [= ->]. destruct (p it); simpl; eauto.
  - intros Hk. destruct (p x); simpl; eauto.
Qed.

Lemma step_keeps_items (cmp : string -> string -> bool) (d : data)
      (rq : request) (k : nat) (it : Item.t) :
  nth_error (items d) k = Some it ->
  exists it',
    nth_error (items (step cmp d rq)) k = Some it' /\ item_kept it it'.
Proof.
  intros Hk. assert (Hrefl : item_kept it it) by (now repeat split).
  destruct rq as [e r|e r|r|e r]; simpl.
  - destruct (post_order e d r) as [d' [o1|code msg]] eqn:Hp.
    + destruct (post_order_inv _ _ _ _ _ Hp)
        as (itemId & item & buyer & _ & _ & _ & _ & _ & _ & ->).
      simpl. apply nth_error_update_first_kept; [|exact Hk].
      intros x. now repeat split.
    + destruct (post_order_cases e d r) as [(m & Hm & _)|(o1 & Hj)].
      * rewrite Hm in Hp. injection Hp as <- _ _. eauto.
      * rewrite Hp in Hj. discriminate.
  - destruct (post_cancel_order_cases cmp e d r)
      as [(code & msg & ->)|(orderId & ord & _ & _ & ->)]; simpl; [eauto|].
    apply nth_error_update_first_kept; [|exact Hk].
    intros x. now repeat split.
  - destruct (post_update_arrival_cases cmp d r)
      as [(code & msg & ->)|(orderId & ord & upd & _ & _ & _ & ->)];
      simpl; eauto.
  - destruct (post_takedown_item_cases cmp e d r)
      as [(code & msg & ->)|(itemId & item & os' & _ & _ & ->)];
      simpl; [eauto|].
    apply nth_error_update_first_kept; [|exact Hk].
    intros x. now repeat split.
Qed.

(** X26: items are never removed, renamed or repriced, and a takedown is
    final.  Through any sequence of requests an item stays at its place in
    the item array with its id, name and price, and an item that is inactive
    is inactive ever after: no handler sets [active] back. *)
Theorem server_run_keeps_items (cmp : string -> string -> bool)
        (hash : string -> string -> string) (rqs : list server_request)
        (d : data) (k : nat) (it : Item.t) :
  nth_error (items d) k = Some it ->
  exists it',
    nth_error (items (server_run cmp hash d rqs)) k = Some it'
    /\ item_kept it it'.
Proof.
  unfold server_run. revert d it.
  induction rqs as [|rq l IH]; intros d it Hk; simpl.
  { exists it. split; [exact Hk|now repeat split]. }
  assert (exists it1, nth_error (items (server_step cmp hash d rq)) k = Some it1
                      /\ item_kept it it1) as (it1 & Hk1 & Hz1).
  { destruct rq as [rq|salt r|r]; simpl.
    - now apply step_keeps_items.
    - destruct (create_account_items_orders cmp hash salt d r) as [-> _].
      exists it. split; [exact Hk|now repeat split].
    - exists it. split; [|now repeat split].
      destruct (create_item_cases cmp d r)
        as [(code & msg & ->)|(name & _ & _ & _ & ->)]; simpl; [exact Hk|].
      rewrite nth_error_app1; [exact Hk|].
      apply nth_error_Some. congruence. }
  destruct (IH _ _ Hk1) as (it' & Hk' & Hz'). exists it'.
  split; [exact Hk'|].
  destruct Hz1 as (A1 & A2 & A3 & A4), Hz' as (B1 & B2 & B3 & B4).
  repeat split; try congruence. auto.
Qed.

Lemma server_run_keeps_items_witness :
  exists it',
    nth_error
      (items
         (server_run sample_compare (fun salt p => "hash:" ++ p)%string
            sample_busy
            [Core (TakedownItem sample_env (mkTakedownReq admin_cred (Some 1)));
             CreateItem (mkItemReq admin_cred (Some "Widget") (Some 1) (Some 9));
             Core (CancelOrder sample_env
                     (mkCancelReq (Some 3) (Some "bob") None None))]))
      0
    = Some it'
    /\ item_kept (Item.with_stock 1 widget) it'.
Proof.
  apply server_run_keeps_items. reflexivity.
Defined.

(** ** Trimmed names *)

Lemma append_assoc' (a b c : string) :
  ((a ++ b) ++ c)%string = (a ++ (b ++ c))%string.
Proof. induction a as [|x a IH]; simpl; [reflexivity|now rewrite IH]. Qed.

Lemma append_empty_r (a : string) : (a ++ "")%string = a.
Proof. induction a as [|x a IH]; simpl; [reflexivity|now rewrite IH]. Qed.

Lemma rev_string_app (acc s : string) :
  rev_string acc s = (rev_string "" s ++ acc)%string.
Proof.
  revert acc. induction s as [|c s IH]; intros acc; simpl; [reflexivity|].
  rewrite (IH (String c acc)), (IH (String c "")), append_assoc'.
  reflexivity.
Qed.

Lemma rev_string_append (a b : string) :
  rev_string "" (a ++ b) = (rev_string "" b ++ rev_string "" a)%string.
Proof.
  induction a as [|x a IH]; simpl; [now rewrite append_empty_r|].
  rewrite (rev_string_app (String x "")), IH, append_assoc'.
  now rewrite <- (rev_string_app (String x "") a).
Qed.

Lemma rev_string_involutive (s : string) :
  rev_string "" (rev_string "" s) = s.
Proof.
  induction s as [|c s IH]; simpl; [reflexivity|].
  rewrite (rev_string_app (String c "")), rev_string_append, IH.
  reflexivity.
Qed.

Lemma trimStart_idempotent (s : string) : trimStart (trimStart s) = trimStart s.
Proof.
  induction s as [|c s IH]; simpl; [reflexivity|].
  destruct (is_space c) eqn:Hc; [exact IH|]. simpl. now rewrite Hc.
Qed.

Lemma trimStart_head (s : string) :
  trimStart s = ""
  \/ exists c t, trimStart s = String c t /\ is_space c = false.
Proof.
  induction s as [|c s IH]; simpl; [now left|].
  destruct (is_space c) eqn:Hc; [exact IH|]. right. eauto.
Qed.

Lemma trimStart_snoc (a : string) (c : ascii) :
  is_space c = false ->
  exists m, trimStart (a ++ String c "") = (m ++ String c "")%string.
Proof.
  intros Hc. induction a as [|x a IH]; simpl.
  - rewrite Hc. now exists "".
  - destruct (is_space x); [exact IH|]. now exists (String x a).
Qed.

Lemma trimEnd_head (c : ascii) (t : string) :
  is_space c = false -> exists u, trimEnd (String c t) = String c u.
Proof.
  intros Hc. unfold trimEnd. simpl.
  rewrite (rev_string_app (String c "")).
  destruct (trimStart_snoc (rev_string "" t) c Hc) as (m & ->).
  rewrite rev_string_append. simpl. eauto.
Qed.

Lemma trimEnd_idempotent (s : string) : trimEnd (trimEnd s) = trimEnd s.
Proof.
  unfold trimEnd. now rewrite rev_string_involutive, trimStart_idempotent.
Qed.

Lemma trim_idempotent (s : string) : trim (trim s) = trim s.
Proof.
  unfold trim.
  destruct (trimStart_head s) as [->|(c & t & -> & Hc)]; [reflexivity|].
  destruct (trimEnd_head c t Hc) as (u & Hu). rewrite Hu. simpl.
  rewrite Hc, <- Hu. apply trimEnd_idempotent.
Qed.

Lemma trimStart_no_space (t : string) :
  forallb (fun c => negb (is_space c)) (list_ascii_of_string t) = true ->
  trimStart t = t.
Proof.
  destruct t as [|c t]; simpl; [reflexivity|]. intros Ht.
  apply andb_true_iff in Ht as [Hc _]. apply negb_true_iff in Hc.
  now rewrite Hc.
Qed.

Lemma rev_string_no_space (t acc : string) :
  forallb (fun c => negb (is_space c)) (list_ascii_of_string t) = true ->
  forallb (fun c => negb (is_space c)) (list_ascii_of_string acc) = true ->
  forallb (fun c => negb (is_space c))
          (list_ascii_of_string (rev_string acc t)) = true.
Proof.
  revert acc. induction t as [|c t IH]; simpl; intros acc Ht Hacc;
    [exact Hacc|].
  apply andb_true_iff in Ht as [Hc Ht]. apply IH; [exact Ht|].
  simpl. now rewrite Hc.
Qed.

Lemma trim_no_space (s : string) :
  forallb (fun c => negb (is_space c)) (list_ascii_of_string s) = true ->
  trim s = s.
Proof.
  intros H. unfold trim, trimEnd. rewrite (trimStart_no_space _ H).
  rewrite trimStart_no_space.
  - apply rev_string_involutive.
  - now apply rev_string_no_space.
Qed.

(** X27: the buyer name of a guest order is the trimmed full name.  When
    an order is placed without a registered user name, the order is under
    ["guest"], its buyer name is the full name of the request without the
    white space around it, it has two characters or more, and trimming it
    again changes nothing.  The full name of the request is ASCII, on which
    the trimming and the length of the embedding are those of the code. *)
Theorem guest_buyer_name_is_trimmed (e : env) (d d' : data) (r : order_req)
        (o : Order.t) :
  post_order e d r = (d', Json o) ->
  non_guest (default "guest" (or_username r)) = false ->
  ascii_only (default "" (or_buyerFullName r)) = true ->
  Order.username o = "guest"
  /\ exists full,
       or_buyerFullName r = Some full
       /\ Order.buyerName o = trim full
       /\ (2 <= String.length (Order.buyerName o))%nat
       /\ trim (Order.buyerName o) = Order.buyerName o.
Proof.
  intros Hp Hg _.
  destruct (post_order_inv _ _ _ _ _ Hp)
    as (itemId & item & buyer & _ & _ & _ & _ & Hb & -> & _).
  unfold new_order. simpl. rewrite Hg. split; [reflexivity|].
  unfold resolve_buyer in Hb. rewrite Hg in Hb.
  destruct (or_buyerFullName r) as [full|]; [|discriminate].
  destruct (truthy full); simpl in Hb; [|discriminate].
  destruct (Nat.ltb_spec (String.length (trim full)) 2); simpl in Hb;
    [discriminate|].
  injection Hb as <-. exists full. repeat split; auto using trim_idempotent.
Qed.

Lemma guest_buyer_name_is_trimmed_witness :
  Order.username live_guest_order = "guest"
  /\ exists full,
       Some " Ann Lee " = Some full
       /\ Order.buyerName live_guest_order = trim full
       /\ (2 <= String.length (Order.buyerName live_guest_order))%nat
       /\ trim (Order.buyerName live_guest_order)
          = Order.buyerName live_guest_order.
Proof.
  apply (guest_buyer_name_is_trimmed sample_env sample_data sample_ordered
           (mkOrderReq None (Some " Ann Lee ") (Some 1) (Some 2))
           live_guest_order);
    reflexivity.
Defined.

(** ** The front end and the cancel handler *)

Lemma authorized_owner (cmp : string -> string -> bool) (d : data)
      (cu p : string) (tok : option string) (o : Order.t) :
  non_guest cu = true ->
  toLowerCase (Order.username o) = toLowerCase cu ->
  authorized cmp d cu p tok o = true.
Proof.
  intros Hng Ho. unfold authorized.
  unfold non_guest in Hng. apply andb_true_iff in Hng as [Ht Hg].
  rewrite Ht, Ho, Hg, String.eqb_refl.
  rewrite (toLowerCase_truthy _ _ Ho Ht). simpl.
  now destruct (_ && _)%bool.
Qed.

(** X28: the cancel button of a registered buyer works.  For an order
    that is not canceled and whose user name is the signed-in user's up to
    letter case, the click sends a request that carries the order id and the
    user name, and the cancel handler accepts it: the order stored under
    that id afterwards has status canceled and the time of the call as its
    cancellation time, its other fields unchanged.  No password is sent
    unless the user is called admin.  The two names are ASCII, on which the
    lower-casing of the embedding is that of the code. *)
Theorem owner_click_cancels (cmp : string -> string -> bool) (e : env)
        (d : data) (cu : string) (pw answer : option string) (g : bool)
        (ord : Order.t) :
  non_guest cu = true ->
  toLowerCase (Order.username ord) = toLowerCase cu ->
  Order.status ord <> canceled -> Order.id ord <> 0 ->
  find (order_with_id (Order.id ord)) (orders d) = Some ord ->
  ascii_only cu = true -> ascii_only (Order.username ord) = true ->
  exists r d',
    cancel_payload (Some cu) pw g true answer ord = Some r
    /\ cr_orderId r = Some (Order.id ord) /\ cr_username r = Some cu
    /\ cr_cancelToken r = None
    /\ (toLowerCase cu <> "admin" -> cr_password r = None)
    /\ post_cancel_order cmp e d r
       = (d', Json (Order.cancel (now e 0) ord))
    /\ find (order_with_id (Order.id ord)) (orders d')
       = Some (Order.cancel (now e 0) ord)
    /\ Order.status (Order.cancel (now e 0) ord) = canceled
    /\ Order.canceledAt (Order.cancel (now e 0) ord) = Some (now e 0)
    /\ frozen (Order.cancel (now e 0) ord) = frozen ord.
Proof.
  intros Hng Ho Hs Hid Hf _ _.
  pose proof Hng as Hng'. unfold non_guest in Hng'.
  apply andb_true_iff in Hng' as [Ht Hg].
  assert (Hown : (truthy cu && negb (toLowerCase cu =? "guest")%string
                  && truthy (Order.username ord)
                  && (toLowerCase (Order.username ord) =? toLowerCase cu)%string)%bool
                 = true).
  { rewrite Ht, Hg, Ho, String.eqb_refl, (toLowerCase_truthy _ _ Ho Ht).
    reflexivity. }
  unfold cancel_payload. cbv zeta. cbn [default].
  destruct (status_eqb_spec (Order.status ord) canceled); [contradiction|].
  rewrite Hown, orb_true_r. cbn [negb orb].
  eexists. eexists. split; [reflexivity|].
  cbn [cr_orderId cr_username cr_cancelToken cr_password].
  split; [reflexivity|]. split; [reflexivity|]. split; [reflexivity|]. split.
  - intros Hna. rewrite Ht.
    destruct (String.eqb_spec (toLowerCase cu) "admin"); [contradiction|].
    reflexivity.
  - unfold post_cancel_order.
    cbn [cr_orderId cr_username cr_cancelToken cr_password default].
    destruct (Z.eqb_spec (Order.id ord) 0); [contradiction|].
    rewrite Hf.
    destruct (status_eqb_spec (Order.status ord) canceled); [contradiction|].
    rewrite (authorized_owner cmp d cu _ _ ord Hng Ho).
    split; [reflexivity|]. split; [|repeat split].
    cbn [orders]. apply (find_update_first _ _ _ _ Hf).
    pose proof (find_some _ _ Hf) as [_ Hx]. exact Hx.
Qed.

Lemma owner_click_cancels_witness :
  exists r d',
    cancel_payload (Some "Eve") None false true None
      (Order.mk 4 1 "Widget" "eve" "eve" 1 1000 scheduled
                (Some "2024-01-05") "2024-01-01T04:00:00.000Z" None None)
    = Some r
    /\ cr_orderId r = Some 4 /\ cr_username r = Some "Eve"
    /\ cr_cancelToken r = None
    /\ (toLowerCase "Eve" <> "admin" -> cr_password r = None)
    /\ post_cancel_order sample_compare sample_env sample_busy r
       = (d', Json (Order.cancel (now sample_env 0)
                      (Order.mk 4 1 "Widget" "eve" "eve" 1 1000 scheduled
                         (Some "2024-01-05") "2024-01-01T04:00:00.000Z"
                         None None)))
    /\ find (order_with_id 4) (orders d')
       = Some (Order.cancel (now sample_env 0)
                      (Order.mk 4 1 "Widget" "eve" "eve" 1 1000 scheduled
                         (Some "2024-01-05") "2024-01-01T04:00:00.000Z"
                         None None))
    /\ Order.status (Order.cancel (now sample_env 0)
                      (Order.mk 4 1 "Widget" "eve" "eve" 1 1000 scheduled
                         (Some "2024-01-05") "2024-01-01T04:00:00.000Z"
                         None None)) = canceled
    /\ Order.canceledAt (Order.cancel (now sample_env 0)
                      (Order.mk 4 1 "Widget" "eve" "eve" 1 1000 scheduled
                         (Some "2024-01-05") "2024-01-01T04:00:00.000Z"
                         None None)) = Some (now sample_env 0)
    /\ frozen (Order.cancel (now sample_env 0)
                      (Order.mk 4 1 "Widget" "eve" "eve" 1 1000 scheduled
                         (Some "2024-01-05") "2024-01-01T04:00:00.000Z"
                         None None))
       = frozen (Order.mk 4 1 "Widget" "eve" "eve" 1 1000 scheduled
                         (Some "2024-01-05") "2024-01-01T04:00:00.000Z"
                         None None).
Proof.
  apply (owner_click_cancels sample_compare sample_env sample_busy "Eve"
           None None false
           (Order.mk 4 1 "Widget" "eve" "eve" 1 1000 scheduled
                     (Some "2024-01-05") "2024-01-01T04:00:00.000Z" None None));
    try reflexivity; discriminate.
Defined.

(** X29: the cancel button of a guest works with the token.  For a live
    guest order with a token, when nobody called admin is signed in and the
    guest types the token, with or without white space around it, the click
    sends the order id and the trimmed token only, and the cancel handler
    accepts the request.  When the prompt is dismissed or left empty,
    nothing is sent. *)
Theorem guest_click_cancels (cmp : string -> string -> bool) (e : env)
        (d : data) (cu pw : option string) (g : bool) (typed token : string)
        (ord : Order.t) :
  toLowerCase (default "" cu) <> "admin" ->
  Order.username ord = "guest" ->
  Order.cancelToken ord = Some token -> truthy token = true ->
  truthy typed = true -> trim typed = token ->
  Order.status ord <> canceled -> Order.id ord <> 0 ->
  find (order_with_id (Order.id ord)) (orders d) = Some ord ->
  cancel_payload cu pw g true None ord = None
  /\ cancel_payload cu pw g true (Some "") ord = None
  /\ exists d',
       cancel_payload cu pw g true (Some typed) ord
       = Some (mkCancelReq (Some (Order.id ord)) None None (Some token))
       /\ post_cancel_order cmp e d
            (mkCancelReq (Some (Order.id ord)) None None (Some token))
          = (d', Json (Order.cancel (now e 0) ord)).
Proof.
  intros Hna Hu Htok Ht Hty Htrim Hs Hid Hf.
  assert (Hpay : forall answer,
             cancel_payload cu pw g true answer ord
             = match answer with
               | Some a =>
                   if truthy a
                   then Some (mkCancelReq (Some (Order.id ord)) None None
                                          (Some (trim a)))
                   else None
               | None => None
               end).
  { intros answer. unfold cancel_payload. cbv zeta.
    destruct (status_eqb_spec (Order.status ord) canceled); [contradiction|].
    destruct (String.eqb_spec (toLowerCase (default "" cu)) "admin");
      [contradiction|].
    rewrite Hu. change (toLowerCase "guest") with "guest".
    rewrite (String.eqb_sym "guest"), String.eqb_refl, orb_true_r.
    destruct (truthy (default "" cu)),
             (toLowerCase (default "" cu) =? "guest")%string;
      reflexivity. }
  rewrite !Hpay. split; [reflexivity|]. split; [reflexivity|].
  rewrite Hty, Htrim. eexists. split; [reflexivity|].
  unfold post_cancel_order.
  cbn [cr_orderId cr_username cr_cancelToken cr_password default].
  destruct (Z.eqb_spec (Order.id ord) 0); [contradiction|].
  rewrite Hf.
  destruct (status_eqb_spec (Order.status ord) canceled); [contradiction|].
  unfold authorized. rewrite Htok. simpl. rewrite Ht, String.eqb_refl.
  reflexivity.
Qed.

Lemma guest_click_cancels_witness :
  cancel_payload None None true true None live_guest_order = None
  /\ cancel_payload None None true true (Some "") live_guest_order = None
  /\ exists d',
       cancel_payload None None true true
         (Some " defghijklmnopqrstuvwxyz0 ") live_guest_order
       = Some (mkCancelReq (Some 1) None None
                           (Some "defghijklmnopqrstuvwxyz0"))
       /\ post_cancel_order sample_compare sample_env sample_ordered
            (mkCancelReq (Some 1) None None (Some "defghijklmnopqrstuvwxyz0"))
          = (d', Json (Order.cancel (now sample_env 0) live_guest_order)).
Proof.
  apply (guest_click_cancels sample_compare sample_env sample_ordered None
           None true " defghijklmnopqrstuvwxyz0 " "defghijklmnopqrstuvwxyz0"
           live_guest_order);
    try reflexivity; discriminate.
Defined.

(** ** The admin panel *)

Lemma fold_left_amount (l : list Order.t) (a : Z) :
  fold_left (fun s o => s + or_zero (Order.amount o)) l a
  = a + fold_left (fun s o => s + or_zero (Order.amount o)) l 0.
Proof.
  revert a. induction l as [|o l IH]; intros a; cbn [fold_left]; [lia|].
  rewrite (IH (a + _)), (IH (0 + _)). lia.
Qed.

Lemma revenue_update_cancel (p : Order.t -> bool) (ts : string)
      (os : list Order.t) (ord : Order.t) :
  find p os = Some ord -> Order.status ord <> canceled ->
  fold_left (fun s o => s + or_zero (Order.amount o))
            (filter Order.live (update_first p (Order.cancel ts) os)) 0
  = fold_left (fun s o => s + or_zero (Order.amount o))
              (filter Order.live os) 0
    - Order.amount ord.
Proof.
  unfold find. intros Hf Hs.
  induction os as [|o os IH]; simpl in *; [discriminate|].
  destruct (p o).
  - injection Hf as ->. cbn [filter].
    assert (Hl : Order.live ord = true).
    { unfold Order.live.
      now destruct (status_eqb_spec (Order.status ord) canceled). }
    rewrite Hl. change (Order.live (Order.cancel ts ord)) with false.
    cbn [fold_left]. rewrite (fold_left_amount _ (0 + _)), or_zero_id. lia.
  - cbn [filter]. destruct (Order.live o); cbn [fold_left].
    + rewrite fold_left_amount, (fold_left_amount _ (0 + _)), IH by assumption.
      lia.
    + now apply IH.
Qed.

Lemma count_update_cancel (p : Order.t -> bool) (ts : string)
      (os : list Order.t) (ord : Order.t) :
  find p os = Some ord -> Order.status ord <> canceled ->
  List.length (filter (fun o => status_eqb (Order.status o) canceled)
                      (update_first p (Order.cancel ts) os))
  = S (List.length (filter (fun o => status_eqb (Order.status o) canceled)
                           os)).
Proof.
  unfold find. intros Hf Hs.
  induction os as [|o os IH]; simpl in *; [discriminate|].
  destruct (p o).
  - injection Hf as ->. simpl.
    destruct (status_eqb_spec (Order.status ord) canceled); [contradiction|].
    reflexivity.
  - simpl. destruct (status_eqb (Order.status o) canceled); simpl;
      now rewrite IH.
Qed.

Lemma length_update_first {A} (p : A -> bool) (f : A -> A) (l : list A) :
  List.length (update_first p f l) = List.length l.
Proof.
  induction l as [|x l IH]; simpl; [reflexivity|].
  destruct (p x); simpl; [reflexivity|now rewrite IH].
Qed.

Lemma filter_update_first_length {A} (q p : A -> bool) (f : A -> A)
      (l : list A) :
  (forall x, q (f x) = q x) ->
  List.length (filter q (update_first p f l)) = List.length (filter q l).
Proof.
  intros Hq. induction l as [|x l IH]; simpl; [reflexivity|].
  destruct (p x); simpl.
  - rewrite Hq. now destruct (q x).
  - destruct (q x); simpl; now rewrite IH.
Qed.

Lemma status_counts (os : list Order.t) :
  (List.length (filter (fun o => status_eqb (Order.status o) processing) os)
   + List.length (filter (fun o => status_eqb (Order.status o) scheduled) os)
   + List.length (filter (fun o => status_eqb (Order.status o) canceled) os)
   = List.length os)%nat.
Proof.
  induction os as [|o os IH]; simpl; [reflexivity|].
  destruct (Order.status o); simpl; lia.
Qed.

(** X30: what the admin panel shows after a cancellation.  The panel
    counts an order under exactly one of processing, scheduled and canceled,
    and shows as many active items as items, since the shop sends the
    active ones only.  After a successful cancel request the revenue is
    lower by the amount of the canceled order, one more order is counted as
    canceled, and the numbers of orders and of items are the same. *)
Theorem cancel_lowers_revenue (cmp : string -> string -> bool) (e : env)
        (d d1 : data) (r : cancel_req) (o : Order.t) (th : option Z) :
  post_cancel_order cmp e d r = (d1, Json o) ->
  let s := fetchAdminData d th in
  let s' := fetchAdminData d1 th in
  revenue s' = revenue s - Order.amount o
  /\ canceledCount s' = S (canceledCount s)
  /\ totalOrders s' = totalOrders s
  /\ totalItems s' = totalItems s
  /\ activeItems s = totalItems s
  /\ (processingCount s + scheduledCount s + canceledCount s
      = totalOrders s)%nat.
Proof.
  intros Hc.
  destruct (post_cancel_order_inv _ _ _ _ _ _ Hc)
    as (orderId & ord & _ & _ & Hf & Hs & -> & ->).
  unfold fetchAdminData, renderAdminStats, get_items. cbn -[filter fold_left].
  repeat split.
  - exact (revenue_update_cancel _ _ _ ord Hf Hs).
  - exact (count_update_cancel _ _ _ ord Hf Hs).
  - apply length_update_first.
  - now apply filter_update_first_length.
  - f_equal. clear. induction (items d) as [|x l IH]; simpl; [reflexivity|].
    destruct (Item.is_active x) eqn:Hx; simpl; [|exact IH].
    now rewrite Hx, IH.
  - apply status_counts.
Qed.

Lemma cancel_lowers_revenue_witness :
  let s := fetchAdminData sample_busy None in
  let s' :=
    fetchAdminData
      (fst (post_cancel_order sample_compare sample_env sample_busy
              (mkCancelReq (Some 4) (Some "eve") None None)))
      None in
  revenue s' = revenue s - 1000
  /\ canceledCount s' = S (canceledCount s)
  /\ totalOrders s' = totalOrders s
  /\ totalItems s' = totalItems s
  /\ activeItems s = totalItems s
  /\ (processingCount s + scheduledCount s + canceledCount s
      = totalOrders s)%nat.
Proof.
  apply (cancel_lowers_revenue sample_compare sample_env sample_busy _
           (mkCancelReq (Some 4) (Some "eve") None None)
           (Order.cancel (now sample_env 0)
              (Order.mk 4 1 "Widget" "eve" "eve" 1 1000 scheduled
                        (Some "2024-01-05") "2024-01-01T04:00:00.000Z"
                        None None))).
  reflexivity.
Defined.
